(** * Echo prompt generator: the React front end and its two service modules

    The development embeds [frontend/src/App.tsx] together with the service
    modules [promptService] and [templateService] it imports, and proves the
    properties of the view state machine that the specification lists.

    Layout: JavaScript strings and the few built-ins the component calls
    ([trim], [includes], [||]); the service modules; the component state with
    its setters; the event handlers; the event loop; then the theorems. *)

From Stdlib Require Import List Bool NArith Ascii String Lia.
From Stdlib Require Import Floats.PrimFloat.
Import ListNotations.

Set Warnings "-inexact-float".
Set Implicit Arguments.

(** ** JavaScript strings *)

Module Js.

(** A JavaScript string is a sequence of UTF-16 code units. *)
Definition char16 := N.
Definition jsstring := list char16.

(** A JavaScript number is an IEEE binary64. *)
Definition number := float.

(** String literals of the source that stay in ASCII. *)
Fixpoint str (s : string) : jsstring :=
  match s with
  | EmptyString => []
  | String c s' => N_of_ascii c :: str s'
  end.

(** ECMAScript [WhiteSpace] and [LineTerminator] code units, the ones
    [String.prototype.trim] strips: TAB, LF, VT, FF, CR, SP, NBSP, the
    Unicode space separators, LS, PS and the byte order mark. *)
Definition isWhiteSpace (c : char16) : bool :=
  ((9 <=? c) && (c <=? 13) || (c =? 32) || (c =? 160) || (c =? 5760)
   || (8192 <=? c) && (c <=? 8202) || (c =? 8232) || (c =? 8233)
   || (c =? 8239) || (c =? 8287) || (c =? 12288) || (c =? 65279))%N.

Fixpoint trimStart (s : jsstring) : jsstring :=
  match s with
  | [] => []
  | c :: s' => if isWhiteSpace c then trimStart s' else s
  end.

Definition trimEnd (s : jsstring) : jsstring := rev (trimStart (rev s)).

Definition trim (s : jsstring) : jsstring := trimEnd (trimStart s).

(** [ToBoolean] on a string: only the empty string is falsy. *)
Definition truthy (s : jsstring) : bool :=
  match s with [] => false | _ :: _ => true end.

(** [a || b] on values that are a string or [undefined] ([None]): the left
    operand when it is truthy, the right one otherwise. *)
Definition or (a b : option jsstring) : option jsstring :=
  match a with
  | Some s => if truthy s then a else b
  | None => b
  end.

(** [a || 'literal']: the right operand is a string, so is the result. *)
Definition or_str (a : option jsstring) (b : jsstring) : jsstring :=
  match a with
  | Some s => if truthy s then s else b
  | None => b
  end.

Fixpoint startsWith (s q : jsstring) {struct q} : bool :=
  match q, s with
  | [], _ => true
  | _ :: _, [] => false
  | d :: q', c :: s' => (c =? d)%N && startsWith s' q'
  end.

(** [s.includes(q)]: [q] occurs in [s] at some position. *)
Fixpoint includes (s q : jsstring) : bool :=
  startsWith s q ||
  match s with
  | [] => false
  | _ :: s' => includes s' q
  end.

(** Empty or made of white space only. *)
Definition blank (s : jsstring) : Prop := Forall (fun c => isWhiteSpace c = true) s.

End Js.

(** ** String.prototype.toLowerCase

    The built-in lower-cases a string as a whole, by the Unicode default case
    conversion: every code unit by its lower-case mapping, except a capital
    sigma, which becomes the final small sigma where it ends a word
    (Final_Sigma: before it a cased letter, after it none, case-ignorable
    characters skipped on both sides).  The tables here cover Basic Latin
    and the Greek alphabet, U+0391 to U+03A9 and U+03B1 to U+03C9; [covered]
    says that a string stays within them. *)

Module Unicode.
Import Js.

Definition capital_sigma : char16 := 931%N.
Definition final_sigma : char16 := 962%N.

Definition isLatinCapital (c : char16) : bool := ((65 <=? c) && (c <=? 90))%N.

Definition isLatinSmall (c : char16) : bool := ((97 <=? c) && (c <=? 122))%N.

(** Alpha to Rho and Sigma to Omega; U+03A2 is not assigned. *)
Definition isGreekCapital (c : char16) : bool :=
  ((913 <=? c) && (c <=? 929) || (931 <=? c) && (c <=? 937))%N.

(** alpha to omega, the final sigma among them. *)
Definition isGreekSmall (c : char16) : bool := ((945 <=? c) && (c <=? 969))%N.

(** The lower-case mapping of one code unit. *)
Definition lower_unit (c : char16) : char16 :=
  if isLatinCapital c || isGreekCapital c then (c + 32)%N else c.

Definition isCased (c : char16) : bool :=
  isLatinCapital c || isLatinSmall c || isGreekCapital c || isGreekSmall c.

(** Apostrophe, full stop, colon, circumflex and grave accent. *)
Definition isCaseIgnorable (c : char16) : bool :=
  ((c =? 39) || (c =? 46) || (c =? 58) || (c =? 94) || (c =? 96))%N.

(** Going from a position outwards: case-ignorable code units, then a
    cased letter. *)
Fixpoint reaches_cased (s : jsstring) : bool :=
  match s with
  | [] => false
  | c :: rest => if isCaseIgnorable c then reaches_cased rest else isCased c
  end.

(** [before] is what stands before the position, nearest first. *)
Fixpoint lower_from (before s : jsstring) : jsstring :=
  match s with
  | [] => []
  | c :: rest =>
      (if (c =? capital_sigma)%N && reaches_cased before && negb (reaches_cased rest)
       then final_sigma
       else lower_unit c) :: lower_from (c :: before) rest
  end.

Definition toLowerCase (s : jsstring) : jsstring := lower_from [] s.




End Unicode.

(** ** What a rejected request carries

    The [catch] clause of [handleEnhance] reads two paths of the thrown
    value: [err.response?.data?.error] and [err.message].  Either link of the
    first chain may be missing; [None] stands for [undefined]. *)

Module Axios.
Import Js.

Record ErrorData := { error : option jsstring }.
Record ErrorResponse := { data : option ErrorData }.
Record AxiosError := { response : option ErrorResponse; message : option jsstring }.

(** [err.response?.data?.error] *)
Definition response_data_error (err : AxiosError) : option jsstring :=
  match response err with
  | None => None
  | Some r => match data r with
              | None => None
              | Some d => error d
              end
  end.

End Axios.

(** ** services/templateService.ts *)

Module templateService.
Import Js.

Record Template := {
  id : jsstring;
  name : jsstring;
  category : jsstring;
  description : jsstring;
  system_prompt_prefix : jsstring
}.

(** The body of the reply to [GET /templates/]: a paginated envelope with
    a [results] field, or the list itself. *)
Inductive TemplatesData :=
| Paginated (results : list Template)
| Raw (items : list Template).

(** [response.data.results || response.data]; an array is truthy even
    when empty. *)
Definition getTemplates (response_data : TemplatesData) : list Template :=
  match response_data with
  | Paginated results => results
  | Raw items => items
  end.

End templateService.

(** ** services/promptService.ts *)

Module promptService.
Import Js.

Record EnhancePromptRequest := {
  prompt_text : jsstring;
  template_id : option jsstring;
  temperature : option number;
  max_tokens : option number;
  custom_system_prompt : option jsstring
}.

Record Persona := { role : jsstring; expertise : jsstring; perspective : jsstring }.
Record Task := { objective : jsstring; deliverable : jsstring; constraints : list jsstring }.
Record Context := {
  technical_background : jsstring;
  key_considerations : list jsstring;
  audience : jsstring
}.
Record Format := { output_style : jsstring; structure : list jsstring; tone : jsstring }.

(** The [enhanced] object; its [id] is [enhanced_id] here, the outer
    record owns the name. *)
Record Enhanced := {
  enhanced_id : number;
  persona : Persona;
  task : Task;
  context : Context;
  format : Format;
  consolidated_prompt : jsstring;
  improvement_summary : jsstring;
  model_used : jsstring;
  tokens_used : number
}.

Record EnhancedPromptResponse := {
  id : number;
  original_text : jsstring;
  enhanced : Enhanced;
  created_at : jsstring
}.

(** A call through [apiClient]. *)
Inductive HttpCall :=
| POST (url : jsstring) (body : EnhancePromptRequest)
| GET (url : jsstring).

(** [enhancePrompt]: one [POST] of the request to [/prompts/enhance/]; the
    promise settles with the reply's [data] or rejects with the error. *)
Definition enhancePrompt (request : EnhancePromptRequest) : HttpCall :=
  POST (str "/prompts/enhance/") request.

Inductive Outcome :=
| Fulfilled (response : EnhancedPromptResponse)
| Rejected (err : Axios.AxiosError).

(** The body on the wire.  [apiClient] serialises the object with
    [JSON.stringify], which writes the properties in insertion order and
    leaves out those whose value is [undefined]. *)
Inductive Json :=
| JString (s : jsstring)
| JNumber (n : number).

Definition property {A : Type} (key : string) (inj : A -> Json) (v : option A)
  : list (string * Json) :=
  match v with
  | Some a => [(key, inj a)]
  | None => []
  end.

Definition stringify (r : EnhancePromptRequest) : list (string * Json) :=
  [("prompt_text"%string, JString (prompt_text r))]
    ++ property "template_id" JString (template_id r)
    ++ property "temperature" JNumber (temperature r)
    ++ property "max_tokens" JNumber (max_tokens r)
    ++ property "custom_system_prompt" JString (custom_system_prompt r).

Definition has_property (key : string) (body : list (string * Json)) : bool :=
  existsb (fun kv => String.eqb (fst kv) key) body.

End promptService.

(** ** App.tsx: the component *)

Module App.
Import Js.
Import templateService.

(** The [useState] cells, in declaration order. *)
Record State := {
  inputPrompt : jsstring;
  loading : bool;
  result : option promptService.EnhancedPromptResponse;
  error : jsstring;
  templates : list Template;
  showAdvanced : bool;
  showTemplates : bool;
  searchQuery : jsstring;
  selectedTemplate : option Template;
  temperature : number;
  maxTokens : number;
  customSystemPrompt : jsstring
}.

(** The initial values passed to [useState]. *)
Definition initial : State := {|
  inputPrompt := [];
  loading := false;
  result := None;
  error := [];
  templates := [];
  showAdvanced := false;
  showTemplates := true;
  searchQuery := [];
  selectedTemplate := None;
  temperature := 0.3%float;
  maxTokens := 2048%float;
  customSystemPrompt := []
|}.

(** A call of one of the setters.  A handler reads the state of the render
    it was created in and queues setter calls; React applies them, in
    order, to the state current at that time. *)
Inductive Update :=
| setInputPrompt (v : jsstring)
| setLoading (v : bool)
| setResult (v : option promptService.EnhancedPromptResponse)
| setError (v : jsstring)
| setTemplates (v : list Template)
| setShowAdvanced (v : bool)
| setShowTemplates (v : bool)
| setSearchQuery (v : jsstring)
| setSelectedTemplate (v : option Template)
| setTemperature (v : number)
| setMaxTokens (v : number)
| setCustomSystemPrompt (v : jsstring).

Definition apply (st : State) (u : Update) : State :=
  let '(Build_State i l r e t a s q sel tmp m c) := st in
  match u with
  | setInputPrompt v => Build_State v l r e t a s q sel tmp m c
  | setLoading v => Build_State i v r e t a s q sel tmp m c
  | setResult v => Build_State i l v e t a s q sel tmp m c
  | setError v => Build_State i l r v t a s q sel tmp m c
  | setTemplates v => Build_State i l r e v a s q sel tmp m c
  | setShowAdvanced v => Build_State i l r e t v s q sel tmp m c
  | setShowTemplates v => Build_State i l r e t a v q sel tmp m c
  | setSearchQuery v => Build_State i l r e t a s v sel tmp m c
  | setSelectedTemplate v => Build_State i l r e t a s q v tmp m c
  | setTemperature v => Build_State i l r e t a s q sel v m c
  | setMaxTokens v => Build_State i l r e t a s q sel tmp v c
  | setCustomSystemPrompt v => Build_State i l r e t a s q sel tmp m v
  end.

Definition commit (us : list Update) (st : State) : State := fold_left apply us st.

(** What a handler does besides setting state. *)
Inductive Effect :=
| alert (msg : jsstring)
| console_error (label : jsstring)
| clipboard_writeText (text : jsstring).

(** *** The two views

    The [main] element renders the input view when [!result] and the
    results view otherwise. *)
Inductive View := InputView | ResultsView.

Definition view (st : State) : View :=
  match result st with
  | None => InputView
  | Some _ => ResultsView
  end.

(** The states of the specification's view state machine, read off the
    component state: a result is on display; or none is and a request is
    pending; or neither.  [Error] is an overlay of [Editing]. *)
Inductive Phase := Editing | Submitting | ResultDisplayed.

Definition phase (st : State) : Phase :=
  match result st with
  | Some _ => ResultDisplayed
  | None => if loading st then Submitting else Editing
  end.

(** [{error && <div>{error}</div>}] in the input view. *)
Definition rendered_error (st : State) : option jsstring :=
  match view st with
  | InputView => if truthy (error st) then Some (error st) else None
  | ResultsView => None
  end.

(** [{result.enhanced.consolidated_prompt}] in the results view. *)
Definition rendered_consolidated_prompt (st : State) : option jsstring :=
  match result st with
  | None => None
  | Some r => Some (promptService.consolidated_prompt (promptService.enhanced r))
  end.

(** The [disabled] attribute of the Enhance button. *)
Definition enhance_disabled (st : State) : bool :=
  negb (truthy (trim (inputPrompt st))) || loading st.

(** *** handleEnhance *)

(** The object literal passed to [enhancePrompt]. *)
Definition enhance_request (st : State) : promptService.EnhancePromptRequest := {|
  promptService.prompt_text := inputPrompt st;
  promptService.template_id := option_map templateService.id (selectedTemplate st);
  promptService.temperature := Some (temperature st);
  promptService.max_tokens := Some (maxTokens st);
  promptService.custom_system_prompt := or (Some (customSystemPrompt st)) None
|}.

(** Up to the [await]: the early return, the two setter calls, the call of
    [enhancePrompt]. *)
Definition handleEnhance (st : State) : list Update * option promptService.HttpCall :=
  if negb (truthy (trim (inputPrompt st))) then ([], None)
  else ([setLoading true; setError []],
        Some (promptService.enhancePrompt (enhance_request st))).

Definition errorMessage (err : Axios.AxiosError) : jsstring :=
  or_str (or (Axios.response_data_error err) (Axios.message err))
         (str "Failed to enhance prompt").

(** From the [await] on: the rest of [try], or [catch], then [finally]. *)
Definition handleEnhance_settled (o : promptService.Outcome) : list Update * list Effect :=
  let '(us, es) :=
    match o with
    | promptService.Fulfilled response => ([setResult (Some response)], [])
    | promptService.Rejected err =>
        ([setError (errorMessage err)], [console_error (str "Enhancement error:")])
    end in
  (us ++ [setLoading false], es).

(** One whole invocation, the reply being [backend]'s and no other event
    coming in between: the state it leaves and the calls it made. *)
Definition handleEnhance_run (backend : promptService.HttpCall -> promptService.Outcome)
           (st : State) : State * list promptService.HttpCall :=
  match handleEnhance st with
  | (us, None) => (commit us st, [])
  | (us, Some call) =>
      (commit (fst (handleEnhance_settled (backend call))) (commit us st), [call])
  end.

(** *** The other handlers *)

(** U+2713 CHECK MARK, which opens both alert texts. *)
Definition check_mark : jsstring := [10003%N].

Definition handleSavePrompt (st : State) : list Update * list Effect :=
  match result st with
  | None => ([], [])
  | Some _ => ([], [alert (check_mark ++ str " Prompt saved! (Feature coming soon)")])
  end.

Definition applyTemplate (template : Template) : list Update * list Effect :=
  ([setSelectedTemplate (Some template); setCustomSystemPrompt []],
   [alert (check_mark ++ str " " ++ name template ++ str " template applied")]).

(** The [onClick] of the button that closes the results view. *)
Definition enhanceAnother : list Update :=
  [setResult None; setInputPrompt []; setSearchQuery []].

(** [loadTemplates], from the [await] on. *)
Definition loadTemplates_settled (o : option TemplatesData) : list Update * list Effect :=
  match o with
  | Some response_data => ([setTemplates (getTemplates response_data)], [])
  | None => ([], [console_error (str "Failed to load templates:")])
  end.

Section Search.

(** [String.prototype.toLowerCase], the Unicode default case conversion. *)
Variable toLowerCase : jsstring -> jsstring.

Definition matches (searchQuery : jsstring) (t : Template) : bool :=
  includes (toLowerCase (name t)) (toLowerCase searchQuery)
  || includes (toLowerCase (category t)) (toLowerCase searchQuery).

Definition filteredTemplates (st : State) : list Template :=
  filter (matches (searchQuery st)) (templates st).

End Search.

End App.

(** ** The page: the component, its pending requests and the events

    JavaScript runs one event at a time.  An event is a user action on a
    control the current view renders, or the settling of a pending request.
    [step] is [None] when the control is not rendered or is disabled. *)

Module Page.
Import Js.
Import templateService.
Import App.

Record System := {
  ui : State;
  (** calls of [enhancePrompt] that have not settled *)
  inflight : list promptService.HttpCall;
  (** the call of [getTemplates] made on mount has not settled *)
  templatesPending : bool
}.

(** After the first render and its [useEffect]. *)
Definition mounted : System :=
  {| ui := initial; inflight := []; templatesPending := true |}.

Inductive Event :=
| ChangeInputPrompt (v : jsstring)
| ClickEnhance
| ClickAdvanced
| ChangeTemperature (v : number)
| ChangeMaxTokens (v : number)
| ChangeCustomSystemPrompt (v : jsstring)
| ClickTemplates
| ChangeSearch (v : jsstring)
| ClickTemplate (i : nat)
| ClickSave
| ClickCopy
| ClickEnhanceAnother
| EnhanceSettled (i : nat) (o : promptService.Outcome)
| TemplatesSettled (o : option TemplatesData).

Definition remove_nth {A : Type} (i : nat) (l : list A) : list A :=
  firstn i l ++ skipn (S i) l.

Definition option_list {A : Type} (o : option A) : list A :=
  match o with Some a => [a] | None => [] end.

(** A handler that awaits nothing ran. *)
Definition ran (sys : System) (h : list Update * list Effect) : option (System * list Effect) :=
  Some ({| ui := commit (fst h) (ui sys);
           inflight := inflight sys;
           templatesPending := templatesPending sys |}, snd h).

(** The loading flag counts the pending requests, and none is pending
    while a result is on display. *)
Definition loading_counts (sys : System) : Prop :=
  List.length (inflight sys) = (if loading (ui sys) then 1 else 0)
  /\ (loading (ui sys) = true -> result (ui sys) = None).

Section Events.

Variable toLowerCase : jsstring -> jsstring.

Definition step (ev : Event) (sys : System) : option (System * list Effect) :=
  let st := ui sys in
  match ev, view st with
  | ChangeInputPrompt v, InputView => ran sys ([setInputPrompt v], [])
  | ClickEnhance, InputView =>
      if enhance_disabled st then None
      else let '(us, call) := handleEnhance st in
           Some ({| ui := commit us st;
                    inflight := inflight sys ++ option_list call;
                    templatesPending := templatesPending sys |}, [])
  | ClickAdvanced, InputView => ran sys ([setShowAdvanced (negb (showAdvanced st))], [])
  | ChangeTemperature v, InputView =>
      if showAdvanced st then ran sys ([setTemperature v], []) else None
  | ChangeMaxTokens v, InputView =>
      if showAdvanced st then ran sys ([setMaxTokens v], []) else None
  | ChangeCustomSystemPrompt v, InputView =>
      if showAdvanced st then ran sys ([setCustomSystemPrompt v], []) else None
  | ClickTemplates, InputView => ran sys ([setShowTemplates (negb (showTemplates st))], [])
  | ChangeSearch v, InputView =>
      if showTemplates st then ran sys ([setSearchQuery v], []) else None
  | ClickTemplate i, InputView =>
      if showTemplates st then
        match nth_error (filteredTemplates toLowerCase st) i with
        | Some template => ran sys (applyTemplate template)
        | None => None
        end
      else None
  | ClickSave, ResultsView => ran sys (handleSavePrompt st)
  | ClickCopy, ResultsView =>
      match rendered_consolidated_prompt st with
      | Some text => ran sys ([], [clipboard_writeText text])
      | None => None
      end
  | ClickEnhanceAnother, ResultsView => ran sys (enhanceAnother, [])
  | EnhanceSettled i o, _ =>
      match nth_error (inflight sys) i with
      | Some _ =>
          let '(us, es) := handleEnhance_settled o in
          Some ({| ui := commit us st;
                   inflight := remove_nth i (inflight sys);
                   templatesPending := templatesPending sys |}, es)
      | None => None
      end
  | TemplatesSettled o, _ =>
      if templatesPending sys then
        let '(us, es) := loadTemplates_settled o in
        Some ({| ui := commit us st;
                 inflight := inflight sys;
                 templatesPending := false |}, es)
      else None
  | _, _ => None
  end.

(** The events run in order; [None] as soon as one cannot happen. *)
Fixpoint run (evs : list Event) (sys : System) : option System :=
  match evs with
  | [] => Some sys
  | ev :: evs' =>
      match step ev sys with
      | Some (sys', _) => run evs' sys'
      | None => None
      end
  end.

Inductive reachable : System -> Prop :=
| reachable_mounted : reachable mounted
| reachable_step sys ev sys' es :
    reachable sys -> step ev sys = Some (sys', es) -> reachable sys'.

End Events.

End Page.

(** ** The two readings of the error priority and of the search *)

Module Reading.
Import Js.

(** The first candidate that is present, whatever its content. *)
Fixpoint first_present (candidates : list (option jsstring)) (fallback : jsstring)
  : jsstring :=
  match candidates with
  | [] => fallback
  | Some s :: _ => s
  | None :: rest => first_present rest fallback
  end.

(** The first candidate that is present and not the empty string. *)
Fixpoint first_nonempty (candidates : list (option jsstring)) (fallback : jsstring)
  : jsstring :=
  match candidates with
  | [] => fallback
  | Some (c :: s) :: _ => c :: s
  | _ :: rest => first_nonempty rest fallback
  end.




End Reading.

(** ** Sample data *)

Module Sample.
Import Js.
Import App.
Import Page.

Definition write_code_body : promptService.EnhancePromptRequest := {|
  promptService.prompt_text := str "write code";
  promptService.template_id := None;
  promptService.temperature := Some 0.3%float;
  promptService.max_tokens := Some 2048%float;
  promptService.custom_system_prompt := None
|}.

Definition typed_write_code : State := commit [setInputPrompt (str "write code")] initial.

(** Two spaces, a TAB, a line feed and a no-break space. *)
Definition typed_blank : State :=
  commit [setInputPrompt (str "  " ++ [9; 10; 160]%N)] initial.

Definition reply : promptService.EnhancedPromptResponse := {|
  promptService.id := 7%float;
  promptService.original_text := str "write code";
  promptService.enhanced := {|
    promptService.enhanced_id := 7%float;
    promptService.persona := {|
      promptService.role := str "Senior engineer";
      promptService.expertise := str "Python";
      promptService.perspective := str "Pragmatic" |};
    promptService.task := {|
      promptService.objective := str "Write a function";
      promptService.deliverable := str "Source file";
      promptService.constraints := [str "No dependencies"] |};
    promptService.context := {|
      promptService.technical_background := str "CLI tool";
      promptService.key_considerations := [str "Readability"];
      promptService.audience := str "Developers" |};
    promptService.format := {|
      promptService.output_style := str "Code block";
      promptService.structure := [str "Code"; str "Notes"];
      promptService.tone := str "Direct" |};
    promptService.consolidated_prompt := str "Act as a senior engineer. Write a function.";
    promptService.improvement_summary := str "Added persona and format";
    promptService.model_used := str "gemini-2.5-flash";
    promptService.tokens_used := 212%float |};
  promptService.created_at := str "2025-01-01T00:00:00Z"
|}.

Definition backend_ok (_ : promptService.HttpCall) : promptService.Outcome :=
  promptService.Fulfilled reply.

(** A 400 whose payload is [{ error: '' }]. *)
Definition empty_error_field : Axios.AxiosError := {|
  Axios.response := Some {| Axios.data := Some {| Axios.error := Some [] |} |};
  Axios.message := Some (str "Request failed with status code 400")
|}.

(** A 429 whose payload is [{ error: 'Rate limit exceeded' }]. *)
Definition rate_limited : Axios.AxiosError := {|
  Axios.response :=
    Some {| Axios.data := Some {| Axios.error := Some (str "Rate limit exceeded") |} |};
  Axios.message := Some (str "Request failed with status code 429")
|}.

Definition backend_down (_ : promptService.HttpCall) : promptService.Outcome :=
  promptService.Rejected rate_limited.

Definition code_review : templateService.Template := {|
  templateService.id := str "1";
  templateService.name := str "Code Review";
  templateService.category := str "Development";
  templateService.description := str "Review a change";
  templateService.system_prompt_prefix := str "You review code."
|}.

Definition essay : templateService.Template := {|
  templateService.id := str "2";
  templateService.name := str "Essay";
  templateService.category := str "Writing";
  templateService.description := str "Write an essay";
  templateService.system_prompt_prefix := str "You write essays."
|}.

Definition with_templates : State :=
  commit [setTemplates [code_review; essay]] initial.

(** The templates arrive, the user picks the first, types, submits. *)
Definition session_submit : list Event :=
  [ TemplatesSettled (Some (templateService.Paginated [code_review; essay]));
    ClickTemplate 0;
    ChangeInputPrompt (str "write code");
    ClickEnhance ].

(** ... and the reply comes. *)
Definition session_result : list Event :=
  session_submit ++ [EnhanceSettled 0 (promptService.Fulfilled reply)].


(** The second template selected and "ESS" typed into the search box. *)
Definition essay_selected : State :=
  commit [setSelectedTemplate (Some essay); setSearchQuery (str "ESS")] with_templates.



Definition after (evs : list Event) : System :=
  match run Unicode.toLowerCase evs mounted with
  | Some sys => sys
  | None => mounted
  end.

End Sample.

(** ** services/api.ts *)

Module api.
Import Js.

(** [===] on two strings. *)
Fixpoint strict_equal (a b : jsstring) : bool :=
  match a, b with
  | [], [] => true
  | c :: a', d :: b' => (c =? d)%N && strict_equal a' b'
  | _, _ => false
  end.

(** [localStorage]: the stored pairs; a key is looked up from the front. *)
Definition Storage := list (jsstring * jsstring).

(** [localStorage.getItem(key)]; [None] is [null]. *)
Fixpoint getItem (storage : Storage) (key : jsstring) : option jsstring :=
  match storage with
  | [] => None
  | (k, v) :: rest => if strict_equal k key then Some v else getItem rest key
  end.

(** The headers of a request, by name. *)
Definition Headers := list (string * jsstring).

Fixpoint get_header (name : string) (hs : Headers) : option jsstring :=
  match hs with
  | [] => None
  | (k, v) :: rest => if String.eqb k name then Some v else get_header name rest
  end.

(** [headers.name = value]: the header is replaced where it stands, or added. *)
Fixpoint set_header (name : string) (value : jsstring) (hs : Headers) : Headers :=
  match hs with
  | [] => [(name, value)]
  | (k, v) :: rest =>
      if String.eqb k name then (k, value) :: rest
      else (k, v) :: set_header name value rest
  end.

Record Config := {
  baseURL : jsstring;
  url : jsstring;
  headers : Headers
}.

(** [import.meta.env.VITE_API_URL || 'http://localhost:8000/api'] *)
Definition API_BASE_URL (VITE_API_URL : option jsstring) : jsstring :=
  or_str VITE_API_URL (str "http://localhost:8000/api").

(** What [axios.create] fixes for every request of [apiClient] to [url]. *)
Definition create (VITE_API_URL : option jsstring) (url : jsstring) : Config := {|
  baseURL := API_BASE_URL VITE_API_URL;
  url := url;
  headers := [("Content-Type"%string, str "application/json")]
|}.

(** The request interceptor. *)
Definition interceptor (storage : Storage) (config : Config) : Config :=
  match getItem storage (str "auth_token") with
  | Some token =>
      if truthy token then
        {| baseURL := baseURL config;
           url := url config;
           headers := set_header "Authorization" (str "Bearer " ++ token) (headers config) |}
      else config
  | None => config
  end.

End api.

(** ** The GET calls of templateService.ts *)

Module templateCalls.
Import Js.

Record Get := {
  path : jsstring;
  params : list (string * jsstring)
}.

(** The call [getTemplates] makes. *)
Definition getTemplates : Get :=
  {| path := str "/templates/"; params := [] |}.

Definition getTemplatesByCategory (category : jsstring) : Get :=
  {| path := str "/templates/"; params := [("category"%string, category)] |}.

Definition getTemplate (templateId : jsstring) : Get :=
  {| path := str "/templates/" ++ templateId ++ str "/"; params := [] |}.

End templateCalls.

(** ** App.tsx: what the template buttons show *)

Module Render.
Import Js.
Import App.

(** [selectedTemplate?.id === template.id], which picks the highlighted
    class of a template button; [undefined] equals no string. *)
Definition highlighted (st : State) (template : templateService.Template) : bool :=
  match selectedTemplate st with
  | Some selected =>
      api.strict_equal (templateService.id selected) (templateService.id template)
  | None => false
  end.

End Render.

(** ** What holds of every state the page reaches *)

Module Invariant.
Import Js.
Import App.
Import Page.

(** Until the template list has arrived there is nothing to select, and a
    selected template is one of the held list. *)
Definition selection_held (sys : System) : Prop :=
  (templatesPending sys = true ->
   templates (ui sys) = [] /\ selectedTemplate (ui sys) = None)
  /\ (forall t, selectedTemplate (ui sys) = Some t -> In t (templates (ui sys))).

(** A call as [handleEnhance] makes them, seen from the server. *)
Definition well_formed_call (held : list templateService.Template)
           (call : promptService.HttpCall) : Prop :=
  exists body,
    call = promptService.POST (str "/prompts/enhance/") body
    /\ ~ blank (promptService.prompt_text body)
    /\ (promptService.template_id body = None
        \/ exists t, In t held
                     /\ promptService.template_id body = Some (templateService.id t))
    /\ promptService.temperature body <> None
    /\ promptService.max_tokens body <> None
    /\ promptService.custom_system_prompt body <> Some [].

(** No error text is held while a request is pending or a result is shown. *)
Definition error_only_when_editing (sys : System) : Prop :=
  loading (ui sys) = true \/ result (ui sys) <> None -> error (ui sys) = [].

(** The selection is held and every pending call is well formed. *)
Definition requests_ok (sys : System) : Prop :=
  selection_held sys
  /\ Forall (well_formed_call (templates (ui sys))) (inflight sys).

End Invariant.

(** ** More sessions *)

Module Sessions.
Import Js.
Import Page.

(** The user types and submits, and the server answers 429. *)
Definition failed : list Event :=
  [ ChangeInputPrompt (str "write code");
    ClickEnhance;
    EnhanceSettled 0 (promptService.Rejected Sample.rate_limited) ].

Definition arrival : Event :=
  TemplatesSettled
    (Some (templateService.Paginated [Sample.code_review; Sample.essay])).

End Sessions.

(** * Properties *)

(** ** The built-ins *)

Module JsFacts.
Import Js.

Lemma trimStart_nil_iff s : trimStart s = [] <-> blank s.
Proof.
  unfold blank. induction s as [|c s IH]; simpl.
  - split; auto.
  - destruct (isWhiteSpace c) eqn:E.
    + rewrite IH. split; intro H.
      * constructor; assumption.
      * inversion H; assumption.
    + split; intro H; [discriminate|].
      inversion H; congruence.
Qed.

Lemma trimStart_head s c r : trimStart s = c :: r -> isWhiteSpace c = false.
Proof.
  induction s as [|d s IH]; simpl; [discriminate|].
  destruct (isWhiteSpace d) eqn:E; [exact IH|].
  intro H. injection H as -> _. exact E.
Qed.

Lemma blank_rev s : blank (rev s) <-> blank s.
Proof.
  unfold blank. rewrite !Forall_forall.
  split; intros H x Hx; apply H; [apply in_rev in Hx|apply in_rev]; assumption.
Qed.

Lemma trim_nil_iff s : trim s = [] <-> blank s.
Proof.
  unfold trim, trimEnd. split.
  - intro H.
    assert (H1 : trimStart (rev (trimStart s)) = []).
    { destruct (trimStart (rev (trimStart s))) as [|c r]; [reflexivity|].
      simpl in H. destruct (rev r); discriminate. }
    apply trimStart_nil_iff in H1. apply -> blank_rev in H1.
    destruct (trimStart s) as [|c r] eqn:E.
    + apply trimStart_nil_iff; assumption.
    + apply trimStart_head in E. unfold blank in H1.
      inversion H1; congruence.
  - intro H. apply trimStart_nil_iff in H. rewrite H. reflexivity.
Qed.

Lemma truthy_trim_false s : truthy (trim s) = false <-> blank s.
Proof.
  rewrite <- trim_nil_iff. destruct (trim s); simpl; split; congruence.
Qed.

Lemma truthy_trim_true s : truthy (trim s) = true -> s <> [].
Proof.
  intros H ->. discriminate.
Qed.

Lemma startsWith_spec s q : startsWith s q = true <-> exists post, s = q ++ post.
Proof.
  revert s. induction q as [|d q IH]; intros s; simpl.
  - split; [intros _; exists s|]; reflexivity.
  - destruct s as [|c s].
    + split; [discriminate|]. intros [post H]; discriminate.
    + rewrite andb_true_iff, N.eqb_eq, IH. split.
      * intros [-> [post ->]]. eauto.
      * intros [post H]. injection H as -> ->. eauto.
Qed.

Lemma includes_spec s q :
  includes s q = true <-> exists pre post, s = pre ++ q ++ post.
Proof.
  induction s as [|c s IH]; simpl.
  - rewrite orb_false_r, startsWith_spec. split.
    + intros [post H]. exists [], post. exact H.
    + intros [pre [post H]]. destruct pre; simpl in H.
      * eauto.
      * discriminate.
  - rewrite orb_true_iff, startsWith_spec, IH. split.
    + intros [[post H]|[pre [post H]]].
      * exists [], post. exact H.
      * exists (c :: pre), post. simpl. congruence.
    + intros [pre [post H]]. destruct pre as [|d pre]; simpl in H.
      * left. eauto.
      * right. injection H as _ ->. eauto.
Qed.


End JsFacts.

(** ** The handlers *)

Import Js Axios App Page Reading.

Lemma handleEnhance_blank st :
  truthy (trim (inputPrompt st)) = false -> handleEnhance st = ([], None).
Proof.
  unfold handleEnhance. intros ->. reflexivity.
Qed.

Lemma handleEnhance_sends st :
  truthy (trim (inputPrompt st)) = true ->
  handleEnhance st =
    ([setLoading true; setError []],
     Some (promptService.enhancePrompt (enhance_request st))).
Proof.
  unfold handleEnhance. intros ->. reflexivity.
Qed.

Lemma or_str_truthy a b : truthy b = true -> truthy (or_str a b) = true.
Proof.
  intros Hb. destruct a as [s|]; simpl; [|exact Hb].
  destruct (truthy s) eqn:E; assumption.
Qed.

Lemma errorMessage_truthy err : truthy (errorMessage err) = true.
Proof.
  apply or_str_truthy. reflexivity.
Qed.

Lemma errorMessage_first_nonempty err :
  errorMessage err =
    first_nonempty [response_data_error err; message err] (str "Failed to enhance prompt").
Proof.
  unfold errorMessage.
  destruct (response_data_error err) as [[|c s]|], (message err) as [[|d m]|];
    reflexivity.
Qed.

(** What settling does to the cells it touches and to the ones it leaves. *)
Lemma settled_fulfilled st response :
  let st' := commit (fst (handleEnhance_settled (promptService.Fulfilled response))) st in
  result st' = Some response /\ loading st' = false /\ error st' = error st
  /\ inputPrompt st' = inputPrompt st.
Proof.
  destruct st; simpl; auto.
Qed.

Lemma settled_rejected st err :
  let st' := commit (fst (handleEnhance_settled (promptService.Rejected err))) st in
  result st' = result st /\ loading st' = false /\ error st' = errorMessage err
  /\ inputPrompt st' = inputPrompt st.
Proof.
  destruct st; simpl; auto.
Qed.

Lemma sent_keeps st :
  let st' := commit [setLoading true; setError []] st in
  result st' = result st /\ loading st' = true /\ error st' = []
  /\ inputPrompt st' = inputPrompt st.
Proof.
  destruct st; simpl; auto.
Qed.

(** C1. When the prompt is "write code", no template is selected, the custom
    system prompt is empty and temperature and max tokens are 0.3 and 2048,
    the one call [handleEnhance] makes is a POST to /prompts/enhance/ of
    {prompt_text: "write code", temperature: 0.3, max_tokens: 2048}: the
    object holds no template id and no custom system prompt, and the body on
    the wire has exactly the three properties. *)
Theorem handleEnhance_write_code_body
        (backend : promptService.HttpCall -> promptService.Outcome) (st : State) :
  inputPrompt st = str "write code" ->
  selectedTemplate st = None ->
  customSystemPrompt st = [] ->
  temperature st = 0.3%float ->
  maxTokens st = 2048%float ->
  snd (handleEnhance st)
    = Some (promptService.POST (str "/prompts/enhance/") Sample.write_code_body)
  /\ snd (handleEnhance_run backend st)
    = [promptService.POST (str "/prompts/enhance/") Sample.write_code_body]
  /\ promptService.stringify Sample.write_code_body
    = [("prompt_text"%string, promptService.JString (str "write code"));
       ("temperature"%string, promptService.JNumber 0.3%float);
       ("max_tokens"%string, promptService.JNumber 2048%float)]
  /\ promptService.has_property "template_id"
       (promptService.stringify Sample.write_code_body) = false
  /\ promptService.has_property "custom_system_prompt"
       (promptService.stringify Sample.write_code_body) = false.
Proof.
  intros Hp Ht Hc Htemp Hmax.
  assert (Hreq : enhance_request st = Sample.write_code_body).
  { unfold enhance_request. rewrite Hp, Ht, Hc, Htemp, Hmax. reflexivity. }
  assert (Hgo : truthy (trim (inputPrompt st)) = true) by (rewrite Hp; reflexivity).
  unfold handleEnhance_run. rewrite (handleEnhance_sends st Hgo), Hreq.
  repeat split; reflexivity.
Qed.

(** C2. When the prompt is empty or white space only, [handleEnhance]
    returns at once: it calls no setter and makes no request, a whole
    invocation leaves the state as it was with no call made, and the Enhance
    button is disabled, so a click on it does not reach the handler. *)
Theorem blank_prompt_sends_nothing
        (backend : promptService.HttpCall -> promptService.Outcome) (st : State) :
  blank (inputPrompt st) ->
  handleEnhance st = ([], None)
  /\ handleEnhance_run backend st = (st, [])
  /\ enhance_disabled st = true
  /\ forall toLowerCase sys, ui sys = st -> step toLowerCase ClickEnhance sys = None.
Proof.
  intros Hb. apply JsFacts.truthy_trim_false in Hb.
  pose proof (handleEnhance_blank st Hb) as Hh.
  assert (Hd : enhance_disabled st = true).
  { unfold enhance_disabled. rewrite Hb. reflexivity. }
  repeat split.
  - exact Hh.
  - unfold handleEnhance_run. rewrite Hh. reflexivity.
  - exact Hd.
  - intros toLowerCase sys <-. unfold step.
    destruct (view (ui sys)); [rewrite Hd|]; reflexivity.
Qed.

(** C3. When the reply to the request is a success, a submission made in
    the editing state passes through the submitting state into the results
    view, and that view renders exactly the reply's consolidated prompt;
    settling with a success does so from any state. *)
Theorem fulfilled_shows_result
        (backend : promptService.HttpCall -> promptService.Outcome) (st : State)
        (response : promptService.EnhancedPromptResponse) :
  phase st = Editing ->
  truthy (trim (inputPrompt st)) = true ->
  backend (promptService.enhancePrompt (enhance_request st))
    = promptService.Fulfilled response ->
  phase (commit (fst (handleEnhance st)) st) = Submitting
  /\ (let st' := fst (handleEnhance_run backend st) in
      view st' = ResultsView
      /\ phase st' = ResultDisplayed
      /\ rendered_consolidated_prompt st'
         = Some (promptService.consolidated_prompt (promptService.enhanced response)))
  /\ (forall st1,
      let st' := commit (fst (handleEnhance_settled (promptService.Fulfilled response))) st1 in
      view st' = ResultsView
      /\ rendered_consolidated_prompt st'
         = Some (promptService.consolidated_prompt (promptService.enhanced response))).
Proof.
  intros Hph Hgo Hback.
  assert (Hres : result st = None).
  { unfold phase in Hph. destruct (result st); [discriminate|reflexivity]. }
  unfold handleEnhance_run. rewrite (handleEnhance_sends st Hgo), Hback.
  destruct st; simpl in Hres; subst; simpl.
  split; [reflexivity|split].
  - repeat split; reflexivity.
  - intros st1. destruct st1. split; reflexivity.
Qed.

(** C4. When the reply to the request is a failure, a submission made from
    the input view ends in the editing state with an error message that is
    not empty and is rendered, and with the prompt text it was submitted
    with; settling with a failure in the input view does so whatever else
    happened meanwhile, and never touches the prompt text. *)
Theorem rejected_returns_to_editing
        (backend : promptService.HttpCall -> promptService.Outcome) (st : State)
        (err : AxiosError) :
  view st = InputView ->
  truthy (trim (inputPrompt st)) = true ->
  backend (promptService.enhancePrompt (enhance_request st))
    = promptService.Rejected err ->
  (let st' := fst (handleEnhance_run backend st) in
   phase st' = Editing
   /\ error st' <> []
   /\ rendered_error st' = Some (error st')
   /\ inputPrompt st' = inputPrompt st)
  /\ (forall st1,
      view st1 = InputView ->
      let st' := commit (fst (handleEnhance_settled (promptService.Rejected err))) st1 in
      phase st' = Editing
      /\ error st' <> []
      /\ inputPrompt st' = inputPrompt st1).
Proof.
  intros Hv Hgo Hback.
  assert (Hne : errorMessage err <> []).
  { pose proof (errorMessage_truthy err) as H. intros E. rewrite E in H. discriminate. }
  split.
  - unfold handleEnhance_run. rewrite (handleEnhance_sends st Hgo), Hback.
    unfold view in Hv. destruct st as [i l [r|] e t a s q sel tmp m c];
      [discriminate|]. simpl.
    repeat split; try assumption.
    unfold rendered_error. simpl. rewrite errorMessage_truthy. reflexivity.
  - intros st1 Hv1. unfold view in Hv1.
    destruct st1 as [i l [r|] e t a s q sel tmp m c]; [discriminate|]. simpl.
    repeat split; assumption.
Qed.

(** C5, as the code has it.  After a failure the error cell holds the first
    of the server's error field and the transport message that is present
    and not the empty string, and the fixed text when neither is. *)
Theorem displayed_error_first_nonempty (err : AxiosError) (st : State) :
  error (commit (fst (handleEnhance_settled (promptService.Rejected err))) st)
    = first_nonempty [response_data_error err; message err]
                     (str "Failed to enhance prompt").
Proof.
  destruct (settled_rejected st err) as (_ & _ & He & _).
  cbv zeta in He. rewrite He. apply errorMessage_first_nonempty.
Qed.

(** C5, as the claim has it, fails: a failure whose payload carries an
    error field that is the empty string shows the transport message, not
    the field. *)
Lemma displayed_error_skips_empty_field :
  let st' := fst (handleEnhance_run (fun _ => promptService.Rejected Sample.empty_error_field)
                                    Sample.typed_write_code) in
  response_data_error Sample.empty_error_field = Some []
  /\ error st' = str "Request failed with status code 400"
  /\ error st' <> first_present [response_data_error Sample.empty_error_field;
                                 message Sample.empty_error_field]
                                (str "Failed to enhance prompt").
Proof.
  cbv zeta. repeat split. discriminate.
Qed.

(** C7. Applying a template makes it the selected template, whatever was
    selected before (the cell holds one template or none), empties the custom
    system prompt and leaves the prompt text as it was. *)
Theorem applyTemplate_selects (st : State) (template : templateService.Template) :
  let st' := commit (fst (applyTemplate template)) st in
  selectedTemplate st' = Some template
  /\ customSystemPrompt st' = []
  /\ inputPrompt st' = inputPrompt st.
Proof.
  destruct st; simpl; auto.
Qed.

(** ** The template search *)








(** ** The event loop *)

Lemma remove_nth_length {A : Type} (i : nat) (l : list A) (x : A) :
  nth_error l i = Some x -> List.length (remove_nth i l) = List.length l - 1.
Proof.
  intros H. assert (Hi : i < List.length l) by (apply nth_error_Some; congruence).
  unfold remove_nth. rewrite length_app, length_firstn, length_skipn. lia.
Qed.

Section Loop.

Variable toLowerCase : jsstring -> jsstring.

Lemma step_sends ev sys sys' es :
  step toLowerCase ev sys = Some (sys', es) ->
  List.length (inflight sys) < List.length (inflight sys') ->
  ev = ClickEnhance
  /\ view (ui sys) = InputView
  /\ truthy (trim (inputPrompt (ui sys))) = true
  /\ loading (ui sys) = false
  /\ ui sys' = commit [setLoading true; setError []] (ui sys)
  /\ inflight sys' = inflight sys
                       ++ [promptService.enhancePrompt (enhance_request (ui sys))].
Proof.
  unfold step, ran. intros H Hlt.
  destruct ev; destruct (view (ui sys)) eqn:Hv;
    repeat match type of H with
           | (if ?b then _ else _) = _ => destruct b eqn:?
           | match ?o with Some _ => _ | None => _ end = _ => destruct o eqn:?
           | (let '(_, _) := ?p in _) = _ => destruct p eqn:?
           end;
    try discriminate;
    try (injection H as <- <-; simpl in Hlt; lia).
  - unfold enhance_disabled in *.
    destruct (truthy (trim (inputPrompt (ui sys)))) eqn:Hgo; [|discriminate].
    destruct (loading (ui sys)) eqn:Hl; [discriminate|].
    rewrite (handleEnhance_sends _ Hgo) in *.
    match goal with E : (_, _) = (_, _) |- _ => injection E as <- <- end.
    injection H as <- <-. simpl. repeat split; reflexivity.
  - injection H as <- <-. simpl in Hlt.
    match goal with E : nth_error _ _ = Some _ |- _ =>
      rewrite (remove_nth_length _ _ E) in Hlt end. lia.
  - injection H as <- <-. simpl in Hlt.
    match goal with E : nth_error _ _ = Some _ |- _ =>
      rewrite (remove_nth_length _ _ E) in Hlt end. lia.
Qed.

End Loop.

Ltac step_cases H :=
  repeat match type of H with
         | (if ?b then _ else _) = _ => destruct b eqn:?
         | match ?o with Some _ => _ | None => _ end = _ => destruct o eqn:?
         | (let '(_, _) := ?p in _) = _ => destruct p eqn:?
         end.

Section Reachable.

Variable toLowerCase : jsstring -> jsstring.

Lemma step_keeps_loading_counts ev sys sys' es :
  loading_counts sys ->
  step toLowerCase ev sys = Some (sys', es) ->
  loading_counts sys'.
Proof.
  unfold loading_counts. destruct sys as [st infl tp].
  destruct st as [i l r e t a s q sel tmp m c].
  unfold step, ran, view, enhance_disabled, handleEnhance, handleSavePrompt,
    rendered_consolidated_prompt, applyTemplate, enhanceAnother.
  cbn [ui inflight templatesPending inputPrompt loading result showAdvanced
       showTemplates].
  intros [Hlen Hres] H.
  destruct ev; destruct r as [r|]; step_cases H; try discriminate;
    try (injection H as <- <-; cbn; split; [exact Hlen|exact Hres]).
  - (* ClickEnhance *)
    destruct (truthy (trim i)); [|discriminate]. destruct l; [discriminate|].
    cbn in *. match goal with E : (_, _) = (_, _) |- _ => injection E as <- <- end.
    injection H as <- <-. cbn. rewrite length_app, Hlen. auto.
  - (* ClickEnhanceAnother *)
    injection H as <- <-. cbn. split; [exact Hlen|reflexivity].
  - (* EnhanceSettled, a result on display *)
    destruct l; [specialize (Hres eq_refl); discriminate|].
    destruct infl; [|discriminate]. destruct i0; discriminate.
  - (* EnhanceSettled, the input view *)
    match goal with E : nth_error _ _ = Some _ |- _ =>
      pose proof (remove_nth_length _ _ E) as Hrm end.
    destruct o; cbn in *;
      match goal with E : (_, _) = (_, _) |- _ => injection E as <- <- end;
      injection H as <- <-; cbn; (split; [|discriminate]);
      rewrite Hrm, Hlen; destruct l; reflexivity.
  - (* TemplatesSettled, a result on display *)
    destruct o; cbn in *;
      match goal with E : (_, _) = (_, _) |- _ => injection E as <- <- end;
      injection H as <- <-; cbn; split; assumption.
  - (* TemplatesSettled, the input view *)
    destruct o; cbn in *;
      match goal with E : (_, _) = (_, _) |- _ => injection E as <- <- end;
      injection H as <- <-; cbn; split; assumption.
Qed.

Lemma reachable_loading_counts sys :
  reachable toLowerCase sys -> loading_counts sys.
Proof.
  induction 1 as [|sys ev sys' es _ IH Hstep].
  - split; [reflexivity|discriminate].
  - exact (step_keeps_loading_counts _ IH Hstep).
Qed.

End Reachable.

Section Transitions.

Variable toLowerCase : jsstring -> jsstring.

Lemma run_reachable evs sys sys' :
  reachable toLowerCase sys -> run toLowerCase evs sys = Some sys' ->
  reachable toLowerCase sys'.
Proof.
  revert sys. induction evs as [|ev evs IH]; intros sys Hr; simpl.
  - intros H. injection H as <-. exact Hr.
  - destruct (step toLowerCase ev sys) as [[sys1 es]|] eqn:E; [|discriminate].
    apply IH. eapply reachable_step; eassumption.
Qed.

(** C8. In every reachable state that displays a result, the button that
    closes the results view can be clicked, and the click empties the
    result, the prompt text and the search query, which puts the page in
    the editing state, and leaves the selected template as it was. *)
Theorem enhance_another_resets (sys : System) :
  reachable toLowerCase sys ->
  phase (ui sys) = ResultDisplayed ->
  exists sys',
    step toLowerCase ClickEnhanceAnother sys = Some (sys', [])
    /\ ui sys' = commit enhanceAnother (ui sys)
    /\ result (ui sys') = None
    /\ inputPrompt (ui sys') = []
    /\ searchQuery (ui sys') = []
    /\ phase (ui sys') = Editing
    /\ selectedTemplate (ui sys') = selectedTemplate (ui sys).
Proof.
  intros Hr Hph. destruct (reachable_loading_counts Hr) as [_ Hres].
  destruct sys as [st infl tp]. destruct st as [i l r e t a s q sel tmp m c].
  cbn in *. unfold phase in Hph. cbn in Hph.
  destruct r as [r|]; [|destruct l; discriminate].
  destruct l; [specialize (Hres eq_refl); discriminate|].
  eexists. unfold step, ran. cbn. repeat split.
Qed.

(** C9. In every reachable state at most one enhancement request is in
    flight, the page is in the submitting state exactly when one is, and an
    event sends a request only if it is a click on Enhance in the editing
    state, with a prompt text that is not empty (indeed not blank) and no
    request in flight; the page is then in the submitting state with that
    one request in flight. *)
Theorem single_enhance_in_flight (sys : System) :
  reachable toLowerCase sys ->
  List.length (inflight sys) <= 1
  /\ (phase (ui sys) = Submitting <-> List.length (inflight sys) = 1)
  /\ (forall ev sys' es,
         step toLowerCase ev sys = Some (sys', es) ->
         List.length (inflight sys) < List.length (inflight sys') ->
         ev = ClickEnhance
         /\ phase (ui sys) = Editing
         /\ inputPrompt (ui sys) <> []
         /\ ~ blank (inputPrompt (ui sys))
         /\ inflight sys = []
         /\ inflight sys' = [promptService.enhancePrompt (enhance_request (ui sys))]
         /\ phase (ui sys') = Submitting).
Proof.
  intros Hr. destruct (reachable_loading_counts Hr) as [Hlen Hres].
  split; [|split].
  - rewrite Hlen. destruct (loading (ui sys)); lia.
  - rewrite Hlen. unfold phase. destruct (loading (ui sys)).
    + rewrite (Hres eq_refl). split; reflexivity.
    + destruct (result (ui sys)); split; discriminate.
  - intros ev sys' es Hstep Hlt.
    destruct (step_sends _ _ _ Hstep Hlt) as (Hev & Hv & Hgo & Hl & Hui & Hin).
    assert (Hnone : result (ui sys) = None).
    { unfold view in Hv. destruct (result (ui sys)); [discriminate|reflexivity]. }
    assert (Hnil : inflight sys = []).
    { rewrite Hl in Hlen. destruct (inflight sys); [reflexivity|discriminate]. }
    repeat split.
    + exact Hev.
    + unfold phase. rewrite Hnone, Hl. reflexivity.
    + exact (JsFacts.truthy_trim_true Hgo).
    + intros Hb. apply JsFacts.truthy_trim_false in Hb. congruence.
    + exact Hnil.
    + rewrite Hin, Hnil. reflexivity.
    + rewrite Hui. destruct (sent_keeps (ui sys)) as (Hr1 & Hl1 & _).
      cbv zeta in Hr1, Hl1. unfold phase. rewrite Hr1, Hnone, Hl1. reflexivity.
Qed.

(** C10. An invocation of [handleEnhance] that sends a request empties the
    error cell before the call, so no error is rendered, and ends with
    [loading] false, not in the submitting state, whether the request
    succeeds or fails; the part that runs when the request settles sets
    [loading] to false whatever the outcome and whatever the state then; and
    in every reachable state of the page that is submitting, the pending
    request can settle either way, which takes the page out of that state. *)
Theorem handleEnhance_never_stuck
        (backend : promptService.HttpCall -> promptService.Outcome) (st : State) :
  truthy (trim (inputPrompt st)) = true ->
  (exists call,
      snd (handleEnhance st) = Some call
      /\ error (commit (fst (handleEnhance st)) st) = []
      /\ rendered_error (commit (fst (handleEnhance st)) st) = None)
  /\ loading (fst (handleEnhance_run backend st)) = false
  /\ phase (fst (handleEnhance_run backend st)) <> Submitting
  /\ (forall o st1, loading (commit (fst (handleEnhance_settled o)) st1) = false)
  /\ (forall sys o,
      reachable toLowerCase sys ->
      phase (ui sys) = Submitting ->
      exists sys' es,
        step toLowerCase (EnhanceSettled 0 o) sys = Some (sys', es)
        /\ loading (ui sys') = false
        /\ phase (ui sys') <> Submitting
        /\ inflight sys' = []).
Proof.
  intros Hgo.
  assert (Hall : forall o st1, loading (commit (fst (handleEnhance_settled o)) st1) = false).
  { intros [response|err] st1; destruct st1; reflexivity. }
  unfold handleEnhance_run. rewrite (handleEnhance_sends st Hgo).
  cbn [fst snd]. split; [|split; [|split; [|split]]].
  - eexists. split; [reflexivity|].
    unfold rendered_error, view. destruct st as [i l [r|] e t a s q sel tmp m c];
      split; reflexivity.
  - apply Hall.
  - unfold phase. rewrite Hall. destruct (result _); discriminate.
  - exact Hall.
  - intros sys o Hr Hph. destruct (reachable_loading_counts Hr) as [Hlen _].
    destruct sys as [st1 infl tp]. destruct st1 as [i l r e t a s q sel tmp m c].
    unfold phase in Hph. cbn in *.
    destruct r as [r|]; [discriminate|]. destruct l; [|discriminate].
    destruct infl as [|call [|call' infl]]; try discriminate.
    unfold step. cbn.
    destruct o as [response|err]; cbn; do 2 eexists;
      (split; [reflexivity|]); repeat split; discriminate.
Qed.

End Transitions.

(** ** The theorems at the sample data *)

Lemma handleEnhance_write_code_body_witness :
  snd (handleEnhance Sample.typed_write_code)
    = Some (promptService.POST (str "/prompts/enhance/") Sample.write_code_body)
  /\ promptService.stringify Sample.write_code_body
    = [("prompt_text"%string, promptService.JString (str "write code"));
       ("temperature"%string, promptService.JNumber 0.3%float);
       ("max_tokens"%string, promptService.JNumber 2048%float)].
Proof.
  destruct (@handleEnhance_write_code_body Sample.backend_ok Sample.typed_write_code
              eq_refl eq_refl eq_refl eq_refl eq_refl)
    as (H1 & _ & H3 & _).
  split; [exact H1|exact H3].
Defined.

Lemma blank_prompt_sends_nothing_witness :
  blank (inputPrompt Sample.typed_blank)
  /\ handleEnhance_run Sample.backend_ok Sample.typed_blank = (Sample.typed_blank, []).
Proof.
  assert (Hb : blank (inputPrompt Sample.typed_blank)).
  { repeat constructor. }
  split; [exact Hb|].
  exact (proj1 (proj2 (@blank_prompt_sends_nothing Sample.backend_ok Sample.typed_blank Hb))).
Defined.

Lemma fulfilled_shows_result_witness :
  phase Sample.typed_write_code = Editing
  /\ rendered_consolidated_prompt
       (fst (handleEnhance_run Sample.backend_ok Sample.typed_write_code))
     = Some (str "Act as a senior engineer. Write a function.").
Proof.
  split; [reflexivity|].
  destruct (@fulfilled_shows_result Sample.backend_ok Sample.typed_write_code Sample.reply
              eq_refl eq_refl eq_refl)
    as (_ & (_ & _ & H) & _).
  exact H.
Defined.

Lemma rejected_returns_to_editing_witness :
  view Sample.typed_write_code = InputView
  /\ (let st' := fst (handleEnhance_run Sample.backend_down Sample.typed_write_code) in
      phase st' = Editing
      /\ error st' <> []
      /\ rendered_error st' = Some (error st')
      /\ inputPrompt st' = str "write code").
Proof.
  split; [reflexivity|].
  destruct (@rejected_returns_to_editing Sample.backend_down Sample.typed_write_code
                                         Sample.rate_limited eq_refl eq_refl eq_refl)
    as (H & _).
  exact H.
Defined.



Lemma enhance_another_resets_witness :
  reachable Unicode.toLowerCase (Sample.after Sample.session_result)
  /\ phase (ui (Sample.after Sample.session_result)) = ResultDisplayed
  /\ exists sys',
      step Unicode.toLowerCase ClickEnhanceAnother (Sample.after Sample.session_result)
        = Some (sys', [])
      /\ ui sys' = commit enhanceAnother (ui (Sample.after Sample.session_result))
      /\ result (ui sys') = None
      /\ inputPrompt (ui sys') = []
      /\ searchQuery (ui sys') = []
      /\ phase (ui sys') = Editing
      /\ selectedTemplate (ui sys')
         = selectedTemplate (ui (Sample.after Sample.session_result)).
Proof.
  assert (Hr : reachable Unicode.toLowerCase (Sample.after Sample.session_result)).
  { apply (@run_reachable Unicode.toLowerCase Sample.session_result mounted);
      [constructor|reflexivity]. }
  split; [exact Hr|]. split; [reflexivity|].
  exact (@enhance_another_resets Unicode.toLowerCase _ Hr eq_refl).
Defined.

Lemma single_enhance_in_flight_witness :
  reachable Unicode.toLowerCase (Sample.after Sample.session_submit)
  /\ List.length (inflight (Sample.after Sample.session_submit)) <= 1
  /\ (phase (ui (Sample.after Sample.session_submit)) = Submitting
      <-> List.length (inflight (Sample.after Sample.session_submit)) = 1).
Proof.
  assert (Hr : reachable Unicode.toLowerCase (Sample.after Sample.session_submit)).
  { apply (@run_reachable Unicode.toLowerCase Sample.session_submit mounted);
      [constructor|reflexivity]. }
  split; [exact Hr|].
  destruct (@single_enhance_in_flight Unicode.toLowerCase _ Hr) as (H1 & H2 & _).
  split; [exact H1|exact H2].
Defined.

Lemma handleEnhance_never_stuck_witness :
  truthy (trim (inputPrompt Sample.typed_write_code)) = true
  /\ loading (fst (handleEnhance_run Sample.backend_down Sample.typed_write_code)) = false
  /\ phase (fst (handleEnhance_run Sample.backend_down Sample.typed_write_code))
     <> Submitting.
Proof.
  split; [reflexivity|].
  destruct (@handleEnhance_never_stuck Unicode.toLowerCase Sample.backend_down
                                      Sample.typed_write_code eq_refl)
    as (_ & H1 & H2 & _).
  split; [exact H1|exact H2].
Defined.

(** * Further properties of the code *)

(** ** services/api.ts *)

Import api.

Lemma strict_equal_spec a b : strict_equal a b = true <-> a = b.
Proof.
  revert b. induction a as [|c a IH]; intros [|d b]; simpl;
    try (split; [discriminate|discriminate]); try (split; reflexivity).
  rewrite andb_true_iff, N.eqb_eq, IH. split.
  - intros [-> ->]. reflexivity.
  - intros H. injection H as -> ->. split; reflexivity.
Qed.

Lemma get_set_header_same name value hs :
  get_header name (set_header name value hs) = Some value.
Proof.
  induction hs as [|[k v] hs IH]; simpl.
  - rewrite String.eqb_refl. reflexivity.
  - destruct (String.eqb k name) eqn:E; simpl; rewrite E; [reflexivity|exact IH].
Qed.

Lemma get_set_header_other name other value hs :
  other <> name ->
  get_header other (set_header name value hs) = get_header other hs.
Proof.
  intros Hne. induction hs as [|[k v] hs IH]; simpl.
  - destruct (String.eqb name other) eqn:E; [|reflexivity].
    apply String.eqb_eq in E. congruence.
  - destruct (String.eqb k name) eqn:E; simpl.
    + apply String.eqb_eq in E. subst k.
      destruct (String.eqb name other) eqn:E'; [|reflexivity].
      apply String.eqb_eq in E'. congruence.
    + rewrite IH. reflexivity.
Qed.

Lemma set_header_twice name value hs :
  set_header name value (set_header name value hs) = set_header name value hs.
Proof.
  induction hs as [|[k v] hs IH]; simpl.
  - rewrite String.eqb_refl. reflexivity.
  - destruct (String.eqb k name) eqn:E; simpl; rewrite E; [reflexivity|].
    rewrite IH. reflexivity.
Qed.

(** X1. The interceptor sets Authorization to "Bearer " followed by the
    stored token exactly when a token is stored under auth_token and is not
    the empty string, and otherwise leaves the header as it was; it never
    touches another header, the base URL or the URL, and running it again
    changes nothing more. *)
Theorem interceptor_authorization (storage : Storage) (config : Config) :
  let config' := interceptor storage config in
  get_header "Authorization" (headers config')
    = match getItem storage (str "auth_token") with
      | Some (c :: token) => Some (str "Bearer " ++ c :: token)
      | _ => get_header "Authorization" (headers config)
      end
  /\ (forall name, name <> "Authorization"%string ->
                   get_header name (headers config') = get_header name (headers config))
  /\ baseURL config' = baseURL config
  /\ url config' = url config
  /\ interceptor storage config' = config'.
Proof.
  unfold interceptor.
  destruct (getItem storage (str "auth_token")) as [[|c token]|]; cbn zeta.
  - cbn. repeat split.
  - cbn [truthy headers baseURL url]. split; [|split; [|split; [|split]]].
    + apply get_set_header_same.
    + intros name Hne. apply get_set_header_other. exact Hne.
    + reflexivity.
    + reflexivity.
    + rewrite set_header_twice. reflexivity.
  - repeat split.
Qed.

(** ** The GET calls of templateService.ts *)

(** X2. Two template ids give the same single-template call only when they
    are the same id, and no id makes that call the one that lists the
    templates; the call by category goes to the list path with the category
    as its only parameter. *)
Theorem getTemplate_call_injective (a b : jsstring) :
  (templateCalls.getTemplate a = templateCalls.getTemplate b -> a = b)
  /\ templateCalls.getTemplate a <> templateCalls.getTemplates
  /\ templateCalls.path (templateCalls.getTemplatesByCategory a)
     = templateCalls.path templateCalls.getTemplates
  /\ templateCalls.getTemplatesByCategory a <> templateCalls.getTemplates.
Proof.
  unfold templateCalls.getTemplate, templateCalls.getTemplates,
    templateCalls.getTemplatesByCategory.
  split; [|split; [|split]].
  - intros H. apply (f_equal templateCalls.path) in H.
    cbn [templateCalls.path] in H. apply app_inv_head in H.
    apply app_inv_tail in H. exact H.
  - intros H. apply (f_equal templateCalls.path) in H.
    cbn [templateCalls.path] in H.
    rewrite <- (app_nil_r (str "/templates/")) in H at 2.
    apply app_inv_head in H. destruct a; discriminate.
  - reflexivity.
  - discriminate.
Qed.

(** ** The template search and the highlighted button *)

Lemma includes_trans a b c :
  includes a b = true -> includes b c = true -> includes a c = true.
Proof.
  rewrite !JsFacts.includes_spec.
  intros (pre & post & ->) (pre' & post' & ->).
  exists (pre ++ pre'), (post' ++ post). rewrite <- !app_assoc. reflexivity.
Qed.

Lemma NoDup_map_filter {A B : Type} (f : A -> B) (keep : A -> bool) (l : list A) :
  NoDup (map f l) -> NoDup (map f (filter keep l)).
Proof.
  induction l as [|x l IH]; simpl; intros H; [constructor|].
  inversion H as [|? ? Hnotin Hnd]; subst.
  destruct (keep x); simpl; [|exact (IH Hnd)].
  constructor; [|exact (IH Hnd)].
  intros Hin. apply Hnotin. apply in_map_iff in Hin.
  destruct Hin as (y & Hy & Hiny). apply filter_In in Hiny.
  apply in_map_iff. exists y. tauto.
Qed.

Lemma filter_by_key {A : Type} (f : A -> jsstring) (k : jsstring) (l : list A) :
  NoDup (map f l) ->
  List.length (filter (fun x => strict_equal k (f x)) l) <= 1
  /\ (forall t, In t l -> f t = k -> filter (fun x => strict_equal k (f x)) l = [t]).
Proof.
  induction l as [|x l IH]; simpl; intros H.
  - split; [lia|contradiction].
  - inversion H as [|? ? Hnotin Hnd]; subst. destruct (IH Hnd) as [IHlen IHone].
    destruct (strict_equal k (f x)) eqn:E.
    + apply strict_equal_spec in E.
      assert (Hnone : filter (fun y => strict_equal k (f y)) l = []).
      { destruct (filter (fun y => strict_equal k (f y)) l) as [|y r] eqn:F;
          [reflexivity|].
        assert (Hy : In y (filter (fun y => strict_equal k (f y)) l))
          by (rewrite F; left; reflexivity).
        apply filter_In in Hy. destruct Hy as [Hy Hk].
        apply strict_equal_spec in Hk. exfalso. apply Hnotin.
        rewrite <- E, Hk. apply in_map. exact Hy. }
      rewrite Hnone. split; [simpl; lia|].
      intros t [<-|Hin] Hk; [reflexivity|].
      exfalso. apply Hnotin. rewrite <- E, <- Hk. apply in_map. exact Hin.
    + split; [exact IHlen|].
      intros t [<-|Hin] Hk.
      * rewrite Hk in E. assert (strict_equal k k = true) by (apply strict_equal_spec; reflexivity).
        congruence.
      * apply IHone; assumption.
Qed.

Section SearchMore.

Variable toLowerCase : jsstring -> jsstring.

(** X3. A query whose lower-cased form contains the lower-cased form of
    another shows no template the other does not: refining the search only
    removes buttons. *)
Theorem search_refines (st : State) (v v' : jsstring) :
  includes (toLowerCase v') (toLowerCase v) = true ->
  incl (filteredTemplates toLowerCase (apply st (setSearchQuery v')))
       (filteredTemplates toLowerCase (apply st (setSearchQuery v))).
Proof.
  intros Hsub t. unfold filteredTemplates.
  assert (Hq : forall w, searchQuery (apply st (setSearchQuery w)) = w
                         /\ templates (apply st (setSearchQuery w)) = templates st).
  { intros w. destruct st; split; reflexivity. }
  destruct (Hq v) as [-> ->]. destruct (Hq v') as [-> ->].
  rewrite !filter_In. intros [Hin Hm]. split; [exact Hin|].
  unfold matches in *. apply orb_true_iff in Hm. apply orb_true_iff.
  destruct Hm as [Hm|Hm]; [left|right]; exact (includes_trans _ _ _ Hm Hsub).
Qed.

(** X4. When the held templates have distinct ids, at most one of the
    buttons shown is highlighted, and when the selected template is among
    those shown it is the one. *)
Theorem highlight_unique (st : State) :
  NoDup (map templateService.id (templates st)) ->
  List.length (filter (Render.highlighted st) (filteredTemplates toLowerCase st)) <= 1
  /\ (forall t, selectedTemplate st = Some t ->
                In t (filteredTemplates toLowerCase st) ->
                filter (Render.highlighted st) (filteredTemplates toLowerCase st) = [t]).
Proof.
  intros Hnd. unfold Render.highlighted.
  destruct (selectedTemplate st) as [sel|].
  - pose proof (NoDup_map_filter templateService.id (matches toLowerCase (searchQuery st))
                                 (templates st) Hnd) as Hnd'.
    destruct (filter_by_key templateService.id (templateService.id sel) _ Hnd')
      as [Hlen Hone].
    split; [exact Hlen|].
    intros t Ht Hin. injection Ht as ->. apply Hone; [exact Hin|reflexivity].
  - split; [|discriminate].
    induction (filteredTemplates toLowerCase st) as [|x l IH]; simpl; lia.
Qed.

End SearchMore.

(** ** The event loop, further *)

Import Invariant.

Lemma Forall_remove_nth {A : Type} (P : A -> Prop) (i : nat) (l : list A) :
  Forall P l -> Forall P (remove_nth i l).
Proof.
  unfold remove_nth. revert i. induction l as [|x l IH]; intros i H.
  - destruct i; simpl; constructor.
  - inversion H as [|? ? Hx Hl]; subst. destruct i as [|i]; simpl.
    + exact Hl.
    + constructor; [exact Hx|]. apply IH. exact Hl.
Qed.

Lemma not_blank_iff s :
  ~ blank s <-> exists c, In c s /\ isWhiteSpace c = false.
Proof.
  unfold blank. induction s as [|c s IH].
  - split.
    + intros H. exfalso. apply H. constructor.
    + intros (c & [] & _).
  - split.
    + intros H. destruct (isWhiteSpace c) eqn:E.
      * assert (Hs : ~ Forall (fun c => isWhiteSpace c = true) s).
        { intros Hs. apply H. constructor; assumption. }
        apply IH in Hs. destruct Hs as (d & Hd & Hw).
        exists d. split; [right; exact Hd|exact Hw].
      * exists c. split; [left; reflexivity|exact E].
    + intros (d & Hd & Hw) H. rewrite Forall_forall in H.
      specialize (H d Hd). congruence.
Qed.

Lemma enhance_request_well_formed st :
  truthy (trim (inputPrompt st)) = true ->
  (forall t, selectedTemplate st = Some t -> In t (templates st)) ->
  well_formed_call (templates st) (promptService.enhancePrompt (enhance_request st)).
Proof.
  intros Hgo Hsel. exists (enhance_request st). split; [reflexivity|].
  split; [|split; [|split; [|split]]].
  - intros Hb. apply JsFacts.truthy_trim_false in Hb.
    change (truthy (trim (inputPrompt st)) = false) in Hb. congruence.
  - unfold enhance_request. cbn.
    destruct (selectedTemplate st) as [t|]; [right|left; reflexivity].
    exists t. split; [apply Hsel|]; reflexivity.
  - discriminate.
  - discriminate.
  - unfold enhance_request. cbn. destruct (customSystemPrompt st); cbn; discriminate.
Qed.

Lemma well_formed_call_from_nil held call :
  well_formed_call [] call -> well_formed_call held call.
Proof.
  intros (body & Hc & Hb & Ht & Hrest). exists body.
  split; [exact Hc|]. split; [exact Hb|]. split; [|exact Hrest].
  destruct Ht as [Ht|(t & [] & _)]. left. exact Ht.
Qed.

Ltac pair_eq :=
  match goal with E : (_, _) = (_, _) |- _ => injection E as <- <- end.

Ltac step_inversion H :=
  unfold step, ran, view, enhance_disabled, handleEnhance, handleSavePrompt,
    rendered_consolidated_prompt, applyTemplate, enhanceAnother,
    handleEnhance_settled, loadTemplates_settled in H;
  cbn [ui inflight templatesPending inputPrompt loading result showAdvanced
       showTemplates error templates selectedTemplate] in H.

Section Invariants.

Variable toLowerCase : jsstring -> jsstring.

Lemma step_keeps_requests_ok ev sys sys' es :
  requests_ok sys ->
  step toLowerCase ev sys = Some (sys', es) ->
  requests_ok sys'.
Proof.
  unfold requests_ok, selection_held. destruct sys as [st infl tp].
  destruct st as [i l r e t a s q sel tmp m c].
  cbn [ui inflight templatesPending templates selectedTemplate].
  intros [[Hpend Hsel] Hreq] H. step_inversion H.
  destruct ev; destruct r as [r|]; step_cases H; try discriminate;
    try (injection H as <- <-; cbn; repeat split; solve [assumption | apply Hpend; assumption]).
  - (* ClickEnhance *)
    destruct (truthy (trim i)) eqn:Hgo; [|discriminate]. cbn in *.
    pair_eq. injection H as <- <-. cbn. split; [split; assumption|].
    apply Forall_app. split; [exact Hreq|]. constructor; [|constructor].
    apply (@enhance_request_well_formed
             (Build_State i l None e t a s q sel tmp m c) Hgo Hsel).
  - (* ClickTemplate *)
    injection H as <- <-. cbn.
    match goal with E : nth_error _ _ = Some _ |- _ =>
      apply nth_error_In in E; unfold filteredTemplates in E;
      apply filter_In in E; cbn in E; destruct E as [Hin _] end.
    split; [split|exact Hreq].
    + intros Htp. destruct (Hpend Htp) as [-> _]. contradiction.
    + intros t1 Ht1. injection Ht1 as <-. exact Hin.
  - (* EnhanceSettled, a result on display *)
    destruct o; cbn in *; pair_eq; injection H as <- <-; cbn;
      (split; [split; assumption|]); apply Forall_remove_nth; exact Hreq.
  - (* EnhanceSettled, the input view *)
    destruct o; cbn in *; pair_eq; injection H as <- <-; cbn;
      (split; [split; assumption|]); apply Forall_remove_nth; exact Hreq.
  - (* TemplatesSettled, a result on display *)
    subst tp. destruct (Hpend eq_refl) as [-> ->].
    destruct o; cbn in *; pair_eq; injection H as <- <-; cbn;
      (split; [split; [discriminate|discriminate]|]);
      try exact Hreq;
      exact (Forall_impl _ (@well_formed_call_from_nil _) Hreq).
  - (* TemplatesSettled, the input view *)
    subst tp. destruct (Hpend eq_refl) as [-> ->].
    destruct o; cbn in *; pair_eq; injection H as <- <-; cbn;
      (split; [split; [discriminate|discriminate]|]);
      try exact Hreq;
      exact (Forall_impl _ (@well_formed_call_from_nil _) Hreq).
Qed.

Lemma reachable_requests_ok sys : reachable toLowerCase sys -> requests_ok sys.
Proof.
  induction 1 as [|sys ev sys' es _ IH Hstep].
  - split; [split|constructor].
    + intros _. split; reflexivity.
    + discriminate.
  - exact (step_keeps_requests_ok _ IH Hstep).
Qed.

(** X5. In every state the page reaches, nothing is selected and the held
    list is empty until the template list has arrived, and a selected
    template is always one of the held list. *)
Theorem selected_template_is_held (sys : System) :
  reachable toLowerCase sys -> selection_held sys.
Proof.
  intros Hr. exact (proj1 (reachable_requests_ok Hr)).
Qed.

(** X6. In every state the page reaches, every pending call is a POST to
    /prompts/enhance/ whose prompt text is not blank, whose template id, if
    any, is the id of a held template, which carries a temperature and a
    token limit, and whose custom system prompt is never the empty string. *)
Theorem pending_calls_well_formed (sys : System) :
  reachable toLowerCase sys ->
  Forall (well_formed_call (templates (ui sys))) (inflight sys).
Proof.
  intros Hr. exact (proj2 (reachable_requests_ok Hr)).
Qed.

(** X7. An event changes the held template list only if it is the arrival
    of the list asked for on mount, and then the list is what [getTemplates]
    returns; once that request has settled, with a list or with a failure,
    no event changes the held list or makes a request pending again. *)
Theorem templates_load_once (ev : Event) (sys sys' : System) (es : list Effect) :
  step toLowerCase ev sys = Some (sys', es) ->
  (templatesPending sys = false ->
   templatesPending sys' = false /\ templates (ui sys') = templates (ui sys))
  /\ (templates (ui sys') = templates (ui sys)
      \/ exists response_data,
          ev = TemplatesSettled (Some response_data)
          /\ templatesPending sys = true
          /\ templates (ui sys') = templateService.getTemplates response_data).
Proof.
  destruct sys as [st infl tp]. destruct st as [i l r e t a s q sel tmp m c].
  cbn [ui inflight templatesPending templates].
  intros H. step_inversion H.
  destruct ev; destruct r as [r|]; step_cases H; try discriminate;
    try (injection H as <- <-; cbn; split;
         [intros Htp; split; [exact Htp|reflexivity]|left; reflexivity]).
  - (* ClickEnhance *)
    destruct (truthy (trim i)); [|discriminate]. cbn in *.
    pair_eq. injection H as <- <-. cbn. split; [|left; reflexivity].
    intros Htp; split; [exact Htp|reflexivity].
  - destruct o; cbn in *; pair_eq; injection H as <- <-; cbn;
      (split; [|left; reflexivity]); intros Htp; (split; [exact Htp|reflexivity]).
  - destruct o; cbn in *; pair_eq; injection H as <- <-; cbn;
      (split; [|left; reflexivity]); intros Htp; (split; [exact Htp|reflexivity]).
  - subst tp. destruct o as [response_data|]; cbn in *; pair_eq;
      injection H as <- <-; cbn; (split; [discriminate|]).
    + right. exists response_data. repeat split.
    + left. reflexivity.
  - subst tp. destruct o as [response_data|]; cbn in *; pair_eq;
      injection H as <- <-; cbn; (split; [discriminate|]).
    + right. exists response_data. repeat split.
    + left. reflexivity.
Qed.

Lemma step_keeps_error_quiet ev sys sys' es :
  loading_counts sys ->
  error_only_when_editing sys ->
  step toLowerCase ev sys = Some (sys', es) ->
  error_only_when_editing sys'.
Proof.
  unfold loading_counts, error_only_when_editing. destruct sys as [st infl tp].
  destruct st as [i l r e t a s q sel tmp m c].
  cbn [ui inflight templatesPending loading result error].
  intros [Hlen Hres] Herr H. step_inversion H.
  destruct ev; destruct r as [r|]; step_cases H; try discriminate;
    try (injection H as <- <-; cbn; exact Herr).
  - (* ClickEnhance *)
    destruct (truthy (trim i)); [|discriminate]. cbn in *.
    pair_eq. injection H as <- <-. cbn. reflexivity.
  - (* ClickEnhanceAnother *)
    injection H as <- <-. cbn. intros _. apply Herr. right. discriminate.
  - (* EnhanceSettled, a result on display: nothing is pending then *)
    assert (Hl : l = true).
    { destruct l; [reflexivity|]. destruct infl; [|discriminate].
      destruct i0; discriminate. }
    specialize (Hres Hl). discriminate.
  - (* EnhanceSettled, the input view *)
    assert (Hl : l = true).
    { destruct l; [reflexivity|]. destruct infl; [|discriminate].
      destruct i0; discriminate. }
    destruct o; cbn in *; pair_eq; injection H as <- <-; cbn.
    + intros _. apply Herr. left. exact Hl.
    + intros [Hf|Hf]; [discriminate|contradiction].
  - destruct o; cbn in *; pair_eq; injection H as <- <-; cbn; exact Herr.
  - destruct o; cbn in *; pair_eq; injection H as <- <-; cbn; exact Herr.
Qed.

Lemma reachable_error_quiet sys :
  reachable toLowerCase sys -> error_only_when_editing sys.
Proof.
  induction 1 as [|sys ev sys' es Hr IH Hstep].
  - intros _. reflexivity.
  - exact (step_keeps_error_quiet _ (reachable_loading_counts Hr) IH Hstep).
Qed.

(** X8. In every state the page reaches, an error text is held only in the
    editing state: none is held while a request is pending, and none while a
    result is displayed. *)
Theorem error_only_in_editing (sys : System) :
  reachable toLowerCase sys ->
  error (ui sys) <> [] ->
  phase (ui sys) = Editing /\ rendered_error (ui sys) = Some (error (ui sys)).
Proof.
  intros Hr Hne. pose proof (reachable_error_quiet Hr) as Hq.
  unfold error_only_when_editing in Hq. unfold phase, rendered_error, view.
  destruct (result (ui sys)) as [r|].
  - exfalso. apply Hne, Hq. right. discriminate.
  - destruct (loading (ui sys)).
    + exfalso. apply Hne, Hq. left. reflexivity.
    + split; [reflexivity|]. destruct (error (ui sys)); [contradiction|reflexivity].
Qed.

(** X9. In every state the page reaches, a displayed result stays the same
    through every event except the click that closes the results view, which
    removes it: no reply can arrive and replace it, and no submission can be
    made from the results view. *)
Theorem displayed_result_stable (sys sys' : System) (ev : Event) (es : list Effect)
        (r : promptService.EnhancedPromptResponse) :
  reachable toLowerCase sys ->
  result (ui sys) = Some r ->
  step toLowerCase ev sys = Some (sys', es) ->
  inflight sys' = []
  /\ (result (ui sys') = Some r
      \/ ev = ClickEnhanceAnother /\ result (ui sys') = None).
Proof.
  intros Hr Hres H. destruct (reachable_loading_counts Hr) as [Hlen Hload].
  destruct sys as [st infl tp]. destruct st as [i l r0 e t a s q sel tmp m c].
  cbn [ui inflight templatesPending loading result] in *. subst r0.
  assert (Hl : l = false).
  { destruct l; [specialize (Hload eq_refl); discriminate|reflexivity]. }
  subst l. destruct infl; [|discriminate]. step_inversion H.
  destruct ev; step_cases H; try discriminate;
    try (injection H as <- <-; cbn; split; [reflexivity|];
         first [left; reflexivity | right; split; reflexivity]).
  - destruct i0; discriminate.
  - destruct o; cbn in *; pair_eq; injection H as <- <-; cbn;
      (split; [reflexivity|left; reflexivity]).
Qed.

(** X10. A click on Enhance is possible exactly when the input view is
    shown, the prompt text holds a code unit that is not white space and
    [loading] is false; the click then sets [loading], empties the error and
    adds exactly the call for the current form to the pending ones, and it
    shows no alert and logs nothing. *)
Theorem enhance_click_enabled (sys : System) :
  ((exists sys' es, step toLowerCase ClickEnhance sys = Some (sys', es))
   <-> view (ui sys) = InputView
       /\ (exists c, In c (inputPrompt (ui sys)) /\ isWhiteSpace c = false)
       /\ loading (ui sys) = false)
  /\ (forall sys' es,
         step toLowerCase ClickEnhance sys = Some (sys', es) ->
         es = []
         /\ ui sys' = commit [setLoading true; setError []] (ui sys)
         /\ inflight sys'
            = inflight sys ++ [promptService.enhancePrompt (enhance_request (ui sys))]
         /\ templatesPending sys' = templatesPending sys).
Proof.
  assert (Hnb : truthy (trim (inputPrompt (ui sys))) = true
                <-> exists c, In c (inputPrompt (ui sys)) /\ isWhiteSpace c = false).
  { rewrite <- not_blank_iff, <- JsFacts.truthy_trim_false.
    destruct (truthy (trim (inputPrompt (ui sys)))); split; congruence. }
  unfold step, enhance_disabled. split.
  - split.
    + intros (sys' & es & H). destruct (view (ui sys)); [|discriminate].
      destruct (truthy (trim (inputPrompt (ui sys)))) eqn:Hgo; [|discriminate].
      destruct (loading (ui sys)); [discriminate|].
      split; [reflexivity|]. split; [apply Hnb|]; reflexivity.
    + intros (-> & Hc & ->). apply Hnb in Hc. rewrite Hc, (handleEnhance_sends _ Hc).
      cbn. eauto.
  - intros sys' es H. destruct (view (ui sys)); [|discriminate].
    destruct (truthy (trim (inputPrompt (ui sys)))) eqn:Hgo; [|discriminate].
    destruct (loading (ui sys)); [discriminate|].
    rewrite (handleEnhance_sends _ Hgo) in H. cbn in H.
    injection H as <- <-. repeat split.
Qed.

End Invariants.

(** ** The handlers, composed *)

Lemma enhance_request_cells st st' :
  inputPrompt st' = inputPrompt st ->
  selectedTemplate st' = selectedTemplate st ->
  temperature st' = temperature st ->
  maxTokens st' = maxTokens st ->
  customSystemPrompt st' = customSystemPrompt st ->
  enhance_request st' = enhance_request st.
Proof.
  unfold enhance_request. intros -> -> -> -> ->. reflexivity.
Qed.

(** X11. After a submission that failed, the Enhance button is enabled
    again and a second click sends the very call that failed: a failure
    changes nothing of what the form would send. *)
Theorem retry_sends_same_call
        (backend : promptService.HttpCall -> promptService.Outcome) (st : State)
        (err : AxiosError) :
  truthy (trim (inputPrompt st)) = true ->
  backend (promptService.enhancePrompt (enhance_request st))
    = promptService.Rejected err ->
  let st' := fst (handleEnhance_run backend st) in
  enhance_disabled st' = false
  /\ snd (handleEnhance st')
     = Some (promptService.enhancePrompt (enhance_request st)).
Proof.
  intros Hgo Hback. unfold handleEnhance_run.
  rewrite (handleEnhance_sends st Hgo), Hback. cbn zeta. cbn [fst].
  set (st' := commit _ (commit _ st)).
  assert (Hcells : inputPrompt st' = inputPrompt st
                   /\ selectedTemplate st' = selectedTemplate st
                   /\ temperature st' = temperature st
                   /\ maxTokens st' = maxTokens st
                   /\ customSystemPrompt st' = customSystemPrompt st
                   /\ loading st' = false).
  { subst st'. destruct st. cbn. repeat split. }
  destruct Hcells as (Hi & Hs & Ht & Hm & Hc & Hl).
  assert (Hgo' : truthy (trim (inputPrompt st')) = true) by (rewrite Hi; exact Hgo).
  split.
  - unfold enhance_disabled. rewrite Hgo', Hl. reflexivity.
  - rewrite (handleEnhance_sends st' Hgo'). cbn [snd].
    rewrite (enhance_request_cells st st' Hi Hs Ht Hm Hc). reflexivity.
Qed.

(** X12. Closing the results view leaves the Enhance button disabled and a
    call of the handler without effect until a prompt is typed; the request
    for the prompt typed next carries the template, the temperature, the
    token limit and the custom system prompt of the request before. *)
Theorem enhance_another_keeps_settings (st : State) (v : jsstring) :
  let st1 := commit enhanceAnother st in
  enhance_disabled st1 = true
  /\ handleEnhance st1 = ([], None)
  /\ enhance_request (apply st1 (setInputPrompt v))
     = {| promptService.prompt_text := v;
          promptService.template_id := promptService.template_id (enhance_request st);
          promptService.temperature := promptService.temperature (enhance_request st);
          promptService.max_tokens := promptService.max_tokens (enhance_request st);
          promptService.custom_system_prompt :=
            promptService.custom_system_prompt (enhance_request st) |}.
Proof.
  destruct st. cbn. repeat split.
Qed.

(** X13. What a request puts on the wire: the prompt text as typed, not
    trimmed; always a temperature and a token limit; a template id exactly
    when a template is selected; a custom system prompt exactly when the
    cell is not the empty string, so also when it is white space only;
    between three and five properties, no name twice. *)
Theorem request_body_properties (st : State) :
  let body := promptService.stringify (enhance_request st) in
  promptService.prompt_text (enhance_request st) = inputPrompt st
  /\ promptService.has_property "prompt_text" body = true
  /\ promptService.has_property "temperature" body = true
  /\ promptService.has_property "max_tokens" body = true
  /\ promptService.has_property "template_id" body
     = match selectedTemplate st with Some _ => true | None => false end
  /\ promptService.has_property "custom_system_prompt" body
     = truthy (customSystemPrompt st)
  /\ 3 <= List.length body <= 5
  /\ NoDup (map fst body).
Proof.
  destruct st as [i l r e t a s q [sel|] tmp m [|c cs]]; cbn;
    repeat split; try lia;
    repeat (constructor; [cbn; intuition discriminate|]); constructor.
Qed.

(** X14. A click on a template followed by a submission sends that
    template's id and no custom system prompt, whatever override had been
    typed before the click; an override typed after the click is sent
    together with the template's id. *)
Theorem apply_template_then_enhance (st : State) (template : templateService.Template)
        (override : jsstring) :
  truthy (trim (inputPrompt st)) = true ->
  override <> [] ->
  let st1 := commit (fst (applyTemplate template)) st in
  let st2 := apply st1 (setCustomSystemPrompt override) in
  (exists body,
      snd (handleEnhance st1) = Some (promptService.enhancePrompt body)
      /\ promptService.prompt_text body = inputPrompt st
      /\ promptService.template_id body = Some (templateService.id template)
      /\ promptService.custom_system_prompt body = None)
  /\ (exists body,
      snd (handleEnhance st2) = Some (promptService.enhancePrompt body)
      /\ promptService.template_id body = Some (templateService.id template)
      /\ promptService.custom_system_prompt body = Some override).
Proof.
  intros Hgo Hne st1 st2.
  assert (H1 : inputPrompt st1 = inputPrompt st) by (destruct st; reflexivity).
  assert (H2 : inputPrompt st2 = inputPrompt st) by (destruct st; reflexivity).
  split.
  - exists (enhance_request st1). rewrite handleEnhance_sends by (rewrite H1; exact Hgo).
    split; [reflexivity|]. destruct st; cbn. repeat split.
  - exists (enhance_request st2). rewrite handleEnhance_sends by (rewrite H2; exact Hgo).
    split; [reflexivity|]. destruct st; cbn. split; [reflexivity|].
    destruct override; [contradiction|reflexivity].
Qed.

(** ** The stubs and the failure paths *)

Section Quiet.

Variable toLowerCase : jsstring -> jsstring.

(** X15. Save and Copy can be clicked only while a result is displayed and
    change nothing: no state cell, no pending call.  Save only shows its
    alert (the error path of [handleSavePrompt] is never taken), and Copy
    writes to the clipboard exactly the consolidated prompt on display. *)
Theorem save_and_copy_change_nothing (ev : Event) (sys sys' : System) (es : list Effect) :
  ev = ClickSave \/ ev = ClickCopy ->
  step toLowerCase ev sys = Some (sys', es) ->
  sys' = sys
  /\ view (ui sys) = ResultsView
  /\ (ev = ClickSave ->
      es = [alert (check_mark ++ str " Prompt saved! (Feature coming soon)")])
  /\ (ev = ClickCopy ->
      exists text, rendered_consolidated_prompt (ui sys) = Some text
                   /\ es = [clipboard_writeText text]).
Proof.
  intros Hev H. destruct sys as [st infl tp].
  destruct st as [i l r e t a s q sel tmp m c].
  unfold step, ran, view, handleSavePrompt, rendered_consolidated_prompt in *.
  cbn [ui result] in *.
  destruct Hev as [-> | ->]; destruct r as [r|]; try discriminate;
    cbn in H; injection H as <- <-; repeat split; try discriminate.
  intros _. eexists. split; reflexivity.
Qed.

Lemma step_keeps_settled_templates ev sys sys' es :
  templatesPending sys = false ->
  step toLowerCase ev sys = Some (sys', es) ->
  templatesPending sys' = false /\ templates (ui sys') = templates (ui sys).
Proof.
  destruct sys as [st infl tp]. destruct st as [i l r e t a s q sel tmp m c].
  cbn [ui inflight templatesPending templates].
  intros -> H. step_inversion H.
  destruct ev; destruct r as [r|]; step_cases H; try discriminate;
    try (injection H as <- <-; cbn; split; reflexivity).
  - destruct (truthy (trim i)); [|discriminate]. cbn in *.
    pair_eq. injection H as <- <-. cbn. split; reflexivity.
  - destruct o; cbn in *; pair_eq; injection H as <- <-; cbn; split; reflexivity.
  - destruct o; cbn in *; pair_eq; injection H as <- <-; cbn; split; reflexivity.
Qed.

Lemma run_keeps_settled_templates evs sys sys' :
  templatesPending sys = false ->
  run toLowerCase evs sys = Some sys' ->
  templatesPending sys' = false /\ templates (ui sys') = templates (ui sys).
Proof.
  revert sys. induction evs as [|ev evs IH]; intros sys Htp; simpl.
  - intros H. injection H as <-. split; [exact Htp|reflexivity].
  - destruct (step toLowerCase ev sys) as [[sys1 es]|] eqn:E; [|discriminate].
    destruct (@step_keeps_settled_templates ev sys sys1 es Htp E) as [Htp1 Ht1].
    intros H. destruct (IH _ Htp1 H) as [Htp' Ht']. split; [exact Htp'|congruence].
Qed.

(** X16. When the request for the templates fails while it is pending in a
    state the page has reached, the failure is logged and nothing else
    happens: no state cell changes, no error text appears; and the held list
    is empty then and stays empty through every later run of events, so no
    template button is ever shown: the list is not asked for again. *)
Theorem failed_template_load_is_silent (sys : System) :
  reachable toLowerCase sys ->
  templatesPending sys = true ->
  exists sys',
    step toLowerCase (TemplatesSettled None) sys
      = Some (sys', [console_error (str "Failed to load templates:")])
    /\ ui sys' = ui sys
    /\ inflight sys' = inflight sys
    /\ (forall evs sys'',
           run toLowerCase evs sys' = Some sys'' ->
           templates (ui sys'') = []
           /\ filteredTemplates toLowerCase (ui sys'') = []).
Proof.
  intros Hr Htp.
  destruct (proj1 (proj1 (reachable_requests_ok Hr)) Htp) as [Hnil _].
  eexists. split; [|split; [|split]].
  - unfold step. rewrite Htp. destruct (view (ui sys)); cbn; reflexivity.
  - reflexivity.
  - reflexivity.
  - intros evs sys'' Hrun.
    match type of Hrun with
    | run _ _ ?s = _ =>
        destruct (@run_keeps_settled_templates evs s sys'' eq_refl Hrun) as [_ Ht]
    end.
    cbn in Ht. rewrite Hnil in Ht. split; [exact Ht|].
    unfold filteredTemplates. rewrite Ht. reflexivity.
Qed.

End Quiet.

(** X17. Every request of [apiClient] states JSON as its content type,
    with or without a stored token; its base URL is never the empty string:
    it is the configured one when that is set and not empty, and the local
    default otherwise. *)
Theorem apiClient_request_config (storage : Storage) (VITE_API_URL : option jsstring)
        (path : jsstring) :
  let config := interceptor storage (create VITE_API_URL path) in
  get_header "Content-Type" (headers config) = Some (str "application/json")
  /\ url config = path
  /\ baseURL config <> []
  /\ baseURL config
     = match VITE_API_URL with
       | Some (c :: configured) => c :: configured
       | _ => str "http://localhost:8000/api"
       end.
Proof.
  unfold interceptor.
  destruct (getItem storage (str "auth_token")) as [[|c token]|];
    cbn [truthy headers baseURL url create]; (split; [|split; [|split]]);
    try reflexivity;
    try (destruct VITE_API_URL as [[|d u]|]; cbn; (discriminate || reflexivity)).
Qed.

(** ** The further properties at the sample data *)

Lemma search_refines_witness :
  includes (Unicode.toLowerCase (str "WRIT")) (Unicode.toLowerCase (str "wri")) = true
  /\ incl (filteredTemplates Unicode.toLowerCase
             (apply Sample.with_templates (setSearchQuery (str "WRIT"))))
          (filteredTemplates Unicode.toLowerCase
             (apply Sample.with_templates (setSearchQuery (str "wri")))).
Proof.
  split; [reflexivity|].
  exact (@search_refines Unicode.toLowerCase Sample.with_templates (str "wri") (str "WRIT") eq_refl).
Defined.

Lemma sample_ids_distinct :
  NoDup (map templateService.id (templates Sample.with_templates)).
Proof.
  cbn. constructor; [|constructor; [|constructor]].
  - intros [H|[]]. discriminate.
  - intros [].
Qed.

Lemma highlight_unique_witness :
  selectedTemplate Sample.essay_selected = Some Sample.essay
  /\ filteredTemplates Unicode.toLowerCase Sample.essay_selected = [Sample.essay]
  /\ List.length (filter (Render.highlighted Sample.essay_selected)
                         (filteredTemplates Unicode.toLowerCase Sample.essay_selected)) <= 1
  /\ filter (Render.highlighted Sample.essay_selected)
            (filteredTemplates Unicode.toLowerCase Sample.essay_selected)
     = [Sample.essay].
Proof.
  destruct (@highlight_unique Unicode.toLowerCase Sample.essay_selected sample_ids_distinct)
    as [Hlen Hone].
  split; [reflexivity|]. split; [reflexivity|]. split; [exact Hlen|].
  apply Hone; [reflexivity|]. left. reflexivity.
Defined.

Lemma sample_submit_reachable : reachable Unicode.toLowerCase (Sample.after Sample.session_submit).
Proof.
  apply (@run_reachable Unicode.toLowerCase Sample.session_submit mounted);
    [constructor|reflexivity].
Qed.

Lemma sample_result_reachable : reachable Unicode.toLowerCase (Sample.after Sample.session_result).
Proof.
  apply (@run_reachable Unicode.toLowerCase Sample.session_result mounted);
    [constructor|reflexivity].
Qed.

Lemma sample_failed_reachable : reachable Unicode.toLowerCase (Sample.after Sessions.failed).
Proof.
  apply (@run_reachable Unicode.toLowerCase Sessions.failed mounted);
    [constructor|reflexivity].
Qed.

Lemma selected_template_is_held_witness :
  selectedTemplate (ui (Sample.after Sample.session_submit)) = Some Sample.code_review
  /\ selection_held (Sample.after Sample.session_submit).
Proof.
  split; [reflexivity|].
  exact (@selected_template_is_held Unicode.toLowerCase _ sample_submit_reachable).
Defined.

Lemma pending_calls_well_formed_witness :
  List.length (inflight (Sample.after Sample.session_submit)) = 1
  /\ Forall (well_formed_call (templates (ui (Sample.after Sample.session_submit))))
            (inflight (Sample.after Sample.session_submit)).
Proof.
  split; [reflexivity|].
  exact (@pending_calls_well_formed Unicode.toLowerCase _ sample_submit_reachable).
Defined.

Lemma templates_load_once_witness :
  templates (ui (Sample.after [Sessions.arrival])) = [Sample.code_review; Sample.essay]
  /\ (templates (ui (Sample.after [Sessions.arrival])) = templates (ui mounted)
      \/ exists response_data,
          Sessions.arrival = TemplatesSettled (Some response_data)
          /\ templatesPending mounted = true
          /\ templates (ui (Sample.after [Sessions.arrival]))
             = templateService.getTemplates response_data).
Proof.
  split; [reflexivity|].
  exact (proj2 (@templates_load_once Unicode.toLowerCase Sessions.arrival mounted
                                     (Sample.after [Sessions.arrival]) [] eq_refl)).
Defined.

Lemma error_only_in_editing_witness :
  error (ui (Sample.after Sessions.failed)) = str "Rate limit exceeded"
  /\ phase (ui (Sample.after Sessions.failed)) = Editing.
Proof.
  split; [reflexivity|].
  refine (proj1 (@error_only_in_editing Unicode.toLowerCase _ sample_failed_reachable _)).
  discriminate.
Defined.

Lemma displayed_result_stable_witness :
  result (ui (Sample.after (Sample.session_result ++ [ClickSave]))) = Some Sample.reply
  \/ ClickSave = ClickEnhanceAnother
     /\ result (ui (Sample.after (Sample.session_result ++ [ClickSave]))) = None.
Proof.
  exact (proj2 (@displayed_result_stable Unicode.toLowerCase (Sample.after Sample.session_result)
                  (Sample.after (Sample.session_result ++ [ClickSave])) ClickSave
                  [alert (check_mark ++ str " Prompt saved! (Feature coming soon)")]
                  Sample.reply sample_result_reachable eq_refl eq_refl)).
Defined.

Lemma retry_sends_same_call_witness :
  snd (handleEnhance (fst (handleEnhance_run Sample.backend_down Sample.typed_write_code)))
  = Some (promptService.enhancePrompt Sample.write_code_body).
Proof.
  exact (proj2 (@retry_sends_same_call Sample.backend_down Sample.typed_write_code
                                       Sample.rate_limited eq_refl eq_refl)).
Defined.

Lemma apply_template_then_enhance_witness :
  exists body,
    snd (handleEnhance (commit (fst (applyTemplate Sample.essay)) Sample.typed_write_code))
      = Some (promptService.enhancePrompt body)
    /\ promptService.prompt_text body = str "write code"
    /\ promptService.template_id body = Some (str "2")
    /\ promptService.custom_system_prompt body = None.
Proof.
  refine (proj1 (@apply_template_then_enhance Sample.typed_write_code Sample.essay
                                              (str "Be brief") eq_refl _)).
  discriminate.
Defined.

Lemma save_and_copy_change_nothing_witness :
  Sample.after (Sample.session_result ++ [ClickCopy]) = Sample.after Sample.session_result
  /\ view (ui (Sample.after Sample.session_result)) = ResultsView.
Proof.
  split; [reflexivity|].
  exact (proj1 (proj2 (@save_and_copy_change_nothing Unicode.toLowerCase ClickCopy
                         (Sample.after Sample.session_result)
                         (Sample.after Sample.session_result)
                         [clipboard_writeText
                            (str "Act as a senior engineer. Write a function.")]
                         (or_intror eq_refl) eq_refl))).
Defined.

Lemma failed_template_load_is_silent_witness :
  exists sys',
    step Unicode.toLowerCase (TemplatesSettled None) mounted
      = Some (sys', [console_error (str "Failed to load templates:")])
    /\ ui sys' = ui mounted
    /\ inflight sys' = inflight mounted
    /\ (forall evs sys'',
           run Unicode.toLowerCase evs sys' = Some sys'' ->
           templates (ui sys'') = []
           /\ filteredTemplates Unicode.toLowerCase (ui sys'') = []).
Proof.
  exact (@failed_template_load_is_silent Unicode.toLowerCase mounted
           (reachable_mounted Unicode.toLowerCase) eq_refl).
Defined.
